(** * QR factorisation kernel of the ChainerX CUDA backend

    Shallow embedding of [CudaQRKernel::Call] and of its local function
    [qr_impl] (chainerx/cuda/cuda_device/linalg.cu).

    The kernel is straight-line code over a device: it asks for array
    storage, takes raw pointers into that storage, hands the pointers to the
    cuSOLVER entry points and reads a status cell back.  The embedding keeps
    exactly that: a device store addressed by block identifiers, array
    handles that are views on blocks, and a state-and-exception monad that
    also records the device calls in the order they are made.

    The CUDA runtime calls and the cuSOLVER handle's [Call] wrapper are taken
    on their success status: [CheckCudaError] and the wrapper then pass the
    call through.  Floating-point entries are an abstract type [Scalar]; what
    cuSOLVER computes, and what it does to device memory through the scratch
    pointer it is handed, is a parameter of the development. *)

From stdpp Require Import base numbers list option strings gmap fin_maps.

Open Scope Z_scope.

(** ** Element types and modes *)

(** Modelled from the spec: the element types of the array abstraction
    (dtype.h is not part of the sources): the two supported floating-point
    kinds, the half-precision kind, and the kinds that must not reach the
    dispatch. *)
Inductive Dtype :=
| kBool | kInt8 | kInt16 | kInt32 | kInt64 | kUInt8
| kFloat16 | kFloat32 | kFloat64.

(** Modelled from the spec: the four output conventions (routines/linalg.h
    is not part of the sources). *)
Module QRMode.
Inductive t := reduced | complete | r | raw.
End QRMode.

#[global] Instance Dtype_eq_dec : EqDecision Dtype.
Proof. solve_decision. Defined.

#[global] Instance QRMode_eq_dec : EqDecision QRMode.t.
Proof. solve_decision. Defined.

(** ** Device memory *)

(** A block identifier names one allocation; identifiers are never handed out
    twice, so a pointer kept after its block was given back stays
    recognisable. *)
Abbreviation ptr := nat.

(** Modelled from the spec: the array handle of the array abstraction
    (array.h is not part of the sources), with what the kernel uses of it: a
    strided view, strides and offset counted in elements, on the block
    [data]. *)
Record Array := mkArray {
  dtype : Dtype;
  shape : list Z;
  strides : list Z;
  offset : Z;
  data : ptr
}.

Definition ndim (a : Array) : Z := Z.of_nat (length (shape a)).

(** Modelled from the spec: an index range of [At].  [Slice{}] is
    [Slice None None], [Slice{0, k}] is [Slice (Some 0) (Some k)]. *)
Inductive ArrayIndex := Slice (start stop : option Z).

(** Modelled from the spec: the error kinds (error.h is not part of the
    sources).  [ChainerxError] carries the message and the status code that
    is appended to it; [NeverReach] is the abort of [CHAINERX_NEVER_REACH]. *)
Inductive Exn :=
| DimensionError (msg : string)
| DtypeError (msg : string)
| ChainerxError (msg : string) (info : Z)
| NeverReach.

(** What the device is asked to do, in call order. *)
Inductive Event :=
| EvAllocate (p : ptr) (count : Z)
| EvRelease (p : ptr)
| EvCudaMalloc (p : ptr)
| EvCudaFree (p : ptr)
| EvGeqrfBufferSize (m n : Z) (a : ptr) (lda : Z)
| EvGeqrf (m n : Z) (a : ptr) (lda : Z) (tau work : ptr) (lwork : Z) (info : ptr)
| EvOrgqrBufferSize (m n k : Z) (a : ptr) (lda : Z) (tau : ptr)
| EvOrgqr (m n k : Z) (a : ptr) (lda : Z) (tau work : ptr) (lwork : Z) (info : ptr)
| EvMemcpyDtoH (p : ptr) (v : Z).

Inductive Res (A : Type) :=
| Ok (a : A)
| Throw (e : Exn).
Arguments Ok {A} a.
Arguments Throw {A} e.

(** The value an [int] parameter receives from an [int64_t] argument
    (truncation to 32 bits, two's complement): the kernel passes [m], [n],
    [mn], [mc] to cuSOLVER, whose dimensions are [int]. *)
Definition to_int (x : Z) : Z := (x + 2147483648) `mod` 4294967296 - 2147483648.

#[local] Arguments to_int : simpl never.

Section Kernel.

Context {Scalar : Type}.

(** Array storage lives in [blocks]; the integers obtained from [cudaMalloc]
    live in [cells].  A block or cell is live while it is in the map. *)
Record Device := mkDevice {
  next : ptr;
  blocks : gmap nat (list Scalar);
  cells : gmap nat Z
}.

(** What a primitive writes through its scratch pointer, given the device as
    it was at the call and the call itself: the new content of a block, resp.
    of a cell, that the write reaches.  Which blocks it reaches is decided in
    [through_scratch]. *)
Record scratch_t := mk_scratch {
  scribble : Device → Event → ptr → list Scalar → list Scalar;
  scribble_cell : Device → Event → ptr → Z → Z
}.

(** The four cuSOLVER entry points of one precision.  The size queries are
    functions of the dimensions and buffers they are given.  [geqrf_run]
    gives the new matrix buffer, tau and the status; [orgqr_run] gives the new
    matrix buffer and the status; each primitive also comes with what it does
    through its scratch pointer. *)
Definition geqrf_bufferSize_t := Z → Z → list Scalar → Z → Z.
Definition orgqr_bufferSize_t := Z → Z → Z → list Scalar → Z → list Scalar → Z.

Record geqrf_t := mk_geqrf {
  geqrf_run : Z → Z → list Scalar → Z → Z → list Scalar * list Scalar * Z;
  geqrf_scratch : scratch_t
}.

Record orgqr_t := mk_orgqr {
  orgqr_run : Z → Z → Z → list Scalar → Z → list Scalar → Z → list Scalar * Z;
  orgqr_scratch : scratch_t
}.

Record Cusolver := mkCusolver {
  cusolverDnSgeqrf_bufferSize : geqrf_bufferSize_t;
  cusolverDnSorgqr_bufferSize : orgqr_bufferSize_t;
  cusolverDnSgeqrf : geqrf_t;
  cusolverDnSorgqr : orgqr_t;
  cusolverDnDgeqrf_bufferSize : geqrf_bufferSize_t;
  cusolverDnDorgqr_bufferSize : orgqr_bufferSize_t;
  cusolverDnDgeqrf : geqrf_t;
  cusolverDnDorgqr : orgqr_t;
  (** content of storage that was allocated and not yet written *)
  uninit : nat → nat → Scalar;
  uninit_int : nat → Z
}.

Context (zero : Scalar) (lib : Cusolver).

(** ** The monad: device state, exceptions, and the record of device calls *)

Definition M (A : Type) : Type := Device → Res A * Device * list Event.

Definition ret {A} (a : A) : M A := λ st, (Ok a, st, []).

Definition bind {A B} (c : M A) (k : A → M B) : M B := λ st,
  match c st with
  | (Ok a, st1, t1) => let '(r2, st2, t2) := k a st1 in (r2, st2, t1 ++ t2)
  | (Throw e, st1, t1) => (Throw e, st1, t1)
  end.

Definition throw {A} (e : Exn) : M A := λ st, (Throw e, st, []).

#[global] Instance M_ret : MRet M := @ret.
#[global] Instance M_bind : MBind M := λ A B k c, bind c k.

(** ** Storage *)

Definition numel (sh : list Z) : Z := foldr Z.mul 1 sh.

Definition block (st : Device) (p : ptr) : list Scalar := default [] (blocks st !! p).

Definition Allocate (count : Z) (content : ptr → list Scalar) : M ptr := λ st,
  (Ok (next st),
   {| next := S (next st);
      blocks := <[next st := content (next st)]> (blocks st);
      cells := cells st |},
   [EvAllocate (next st) count]).

(** The block goes back to the device: the last handle on it went away. *)
Definition Release (a : Array) : M unit := λ st,
  (Ok tt,
   {| next := next st; blocks := delete (data a) (blocks st); cells := cells st |},
   [EvRelease (data a)]).

(** Stack unwinding: the listed locals are destroyed, then [e] propagates. *)
Fixpoint unwind {A} (locals : list Array) (e : Exn) : M A :=
  match locals with
  | [] => throw e
  | a :: rest => Release a;; unwind rest e
  end.

(** ** Array primitives *)

(** Strides of a row-major array of the given shape. *)
Fixpoint c_strides (sh : list Z) : list Z :=
  match sh with
  | [] => []
  | _ :: rest => numel rest :: c_strides rest
  end.

Definition range (d : Z) : list Z := seqZ 0 d.

(** All multi-indices of a shape, in row-major order. *)
Fixpoint indices (sh : list Z) : list (list Z) :=
  match sh with
  | [] => [[]]
  | d :: rest => i ← range d; cons i <$> indices rest
  end.

Fixpoint dot (idx st : list Z) : Z :=
  match idx, st with
  | i :: idx', s :: st' => i * s + dot idx' st'
  | _, _ => 0
  end.

Definition position (a : Array) (idx : list Z) : Z := offset a + dot idx (strides a).

(** The entry of [a] at [idx], read in the content [blk] of its block. *)
Definition get_in (blk : list Scalar) (a : Array) (idx : list Z) : Scalar :=
  nth (Z.to_nat (position a idx)) blk zero.

(** The entries of [a] as the handle shows them, row-major. *)
Definition elements_in (blk : list Scalar) (a : Array) : list Scalar :=
  get_in blk a <$> indices (shape a).

Definition get (st : Device) (a : Array) (idx : list Z) : Scalar :=
  get_in (block st (data a)) a idx.

Definition elements (st : Device) (a : Array) : list Scalar :=
  elements_in (block st (data a)) a.

(** Modelled from the spec: [Empty] of the array abstraction (array.h,
    routines/creation.h are not part of the sources): a new array of the given
    shape on fresh, unwritten device storage. *)
Definition Empty (sh : list Z) (dt : Dtype) : M Array :=
  p ← Allocate (numel sh) (λ p, uninit lib p <$> seq 0 (Z.to_nat (numel sh)));
  mret (mkArray dt sh (c_strides sh) 0 p).

(** Modelled from the spec: [Array::Transpose] without axes: the view with the
    axes reversed, on the same storage. *)
Definition Transpose (a : Array) : Array :=
  mkArray (dtype a) (reverse (shape a)) (reverse (strides a)) (offset a) (data a).

(** Modelled from the spec: [Array::Copy]: a new row-major array holding the
    entries of the view. *)
Definition Copy (a : Array) : M Array := λ st,
  (p ← Allocate (numel (shape a)) (λ _, elements st a);
   mret (mkArray (dtype a) (shape a) (c_strides (shape a)) 0 p)) st.

(** Start or stop of a slice on an axis of length [d], as Python clamps it. *)
Definition clamp (d x : Z) : Z :=
  if x <? 0 then Z.max 0 (x + d) else Z.min x d.

Definition slice_start (d : Z) (i : ArrayIndex) : Z :=
  match i with Slice s _ => clamp d (default 0 s) end.

Definition slice_len (d : Z) (i : ArrayIndex) : Z :=
  match i with
  | Slice s e => Z.max 0 (clamp d (default d e) - clamp d (default 0 s))
  end.

(** Modelled from the spec: [Array::At] on index ranges: the view restricted
    to the given range on each axis, on the same storage. *)
Definition At (a : Array) (idx : list ArrayIndex) : Array :=
  mkArray (dtype a)
    (zip_with slice_len (shape a) idx)
    (strides a)
    (offset a + dot (zip_with slice_start (shape a) idx) (strides a))
    (data a).

Definition on_or_above (k : Z) (idx : list Z) : bool :=
  match idx with
  | [i; j] => k <=? j - i
  | _ => true
  end.

(** Modelled from the spec: [Triu(matrix, diagonal-offset)] (routines/linalg
    side of the array abstraction, not part of the sources): a new array equal
    to the matrix on and above the [k]-th diagonal and zero below it. *)
Definition triu_in (k : Z) (blk : list Scalar) (a : Array) : list Scalar :=
  (λ idx, if on_or_above k idx then get_in blk a idx else zero) <$> indices (shape a).

Definition Triu (a : Array) (k : Z) : M Array := λ st,
  (p ← Allocate (numel (shape a)) (λ _, triu_in k (block st (data a)) a);
   mret (mkArray (dtype a) (shape a) (c_strides (shape a)) 0 p)) st.

(** Modelled from the spec: the elementwise copy kernel: every entry of the
    destination view receives the entry of the source at the same index. *)
Definition copy_in (src_blk : list Scalar) (src : Array)
    (dst_blk : list Scalar) (dst : Array) : list Scalar :=
  foldl (λ blk idx, <[Z.to_nat (position dst idx) := get_in src_blk src idx]> blk)
        dst_blk (indices (shape dst)).

Definition CopyKernel (src dst : Array) : M unit := λ st,
  (Ok tt,
   {| next := next st;
      blocks := <[data dst := copy_in (block st (data src)) src (block st (data dst)) dst]>
                  (blocks st);
      cells := cells st |},
   []).

(** The raw pointer of an array that starts at the beginning of its block. *)
Definition GetRawOffsetData (a : Array) : ptr := data a.

(** ** CUDA runtime and cuSOLVER calls *)

(** [cudaMalloc(&devInfo, sizeof(int))] *)
Definition cudaMalloc : M ptr := λ st,
  (Ok (next st),
   {| next := S (next st);
      blocks := blocks st;
      cells := <[next st := uninit_int lib (next st)]> (cells st) |},
   [EvCudaMalloc (next st)]).

(** [cudaFree(p)]: the cell goes back to the device. *)
Definition cudaFree (p : ptr) : M unit := λ st,
  (Ok tt,
   {| next := next st; blocks := blocks st; cells := delete p (cells st) |},
   [EvCudaFree p]).

(** [cudaMemcpy(&devInfo_h, devInfo, sizeof(int), cudaMemcpyDeviceToHost)] *)
Definition cudaMemcpyDtoH (p : ptr) : M Z := λ st,
  (Ok (default 0 (cells st !! p)), st, [EvMemcpyDtoH p (default 0 (cells st !! p))]).

(** The scratch pointer names a live block of at least [lwork] entries. *)
Definition scratch_ok (st : Device) (work : ptr) (lwork : Z) : bool :=
  match blocks st !! work with
  | Some blk => lwork <=? Z.of_nat (length blk)
  | None => false
  end.

(** Every live block, resp. cell, rewritten by [f]. *)
Definition scribble_all {A} (f : ptr → A → A) (mem : gmap nat A) : gmap nat A :=
  map_imap (λ p v, Some (f p v)) mem.

(** The primitive's writes through its scratch pointer, on top of the
    results [after] it wrote.  Handed a live block of at least [lwork]
    entries, it writes in that block only.  Handed anything else (a released
    block, a block that is too small), where its writes land is not in the
    hands of the kernel: any live block and cell may be rewritten. *)
Definition through_scratch (s : scratch_t) (before : Device) (ev : Event)
    (work : ptr) (lwork : Z) (after : Device) : Device :=
  if scratch_ok before work lwork then
    {| next := next after;
       blocks := alter (scribble s before ev work) work (blocks after);
       cells := cells after |}
  else
    {| next := next after;
       blocks := scribble_all (scribble s before ev) (blocks after);
       cells := scribble_all (scribble_cell s before ev) (cells after) |}.

(** The dimensions are [int64_t] in the kernel and [int] in cuSOLVER: each
    call converts them, and the record of device calls holds what the
    library receives. *)
Definition call_geqrf_bufferSize (f : geqrf_bufferSize_t)
    (m n : Z) (a : ptr) (lda : Z) : M Z := λ st,
  (Ok (f (to_int m) (to_int n) (block st a) (to_int lda)), st,
   [EvGeqrfBufferSize (to_int m) (to_int n) a (to_int lda)]).

Definition call_geqrf (f : geqrf_t)
    (m n : Z) (a : ptr) (lda : Z) (tau work : ptr) (lwork : Z) (info : ptr) : M unit :=
  λ st,
  (Ok tt,
   through_scratch (geqrf_scratch f) st
     (EvGeqrf (to_int m) (to_int n) a (to_int lda) tau work lwork info) work lwork
     {| next := next st;
        blocks :=
          <[tau := (geqrf_run f (to_int m) (to_int n) (block st a) (to_int lda) lwork).1.2]>
            (<[a := (geqrf_run f (to_int m) (to_int n) (block st a) (to_int lda) lwork).1.1]>
               (blocks st));
        cells :=
          <[info := (geqrf_run f (to_int m) (to_int n) (block st a) (to_int lda) lwork).2]>
            (cells st) |},
   [EvGeqrf (to_int m) (to_int n) a (to_int lda) tau work lwork info]).

Definition call_orgqr_bufferSize (f : orgqr_bufferSize_t)
    (m n k : Z) (a : ptr) (lda : Z) (tau : ptr) : M Z := λ st,
  (Ok (f (to_int m) (to_int n) (to_int k) (block st a) (to_int lda) (block st tau)), st,
   [EvOrgqrBufferSize (to_int m) (to_int n) (to_int k) a (to_int lda) tau]).

Definition call_orgqr (f : orgqr_t)
    (m n k : Z) (a : ptr) (lda : Z) (tau work : ptr) (lwork : Z) (info : ptr) : M unit :=
  λ st,
  (Ok tt,
   through_scratch (orgqr_scratch f) st
     (EvOrgqr (to_int m) (to_int n) (to_int k) a (to_int lda) tau work lwork info)
     work lwork
     {| next := next st;
        blocks :=
          <[a := (orgqr_run f (to_int m) (to_int n) (to_int k) (block st a) (to_int lda)
                    (block st tau) lwork).1]> (blocks st);
        cells :=
          <[info := (orgqr_run f (to_int m) (to_int n) (to_int k) (block st a) (to_int lda)
                       (block st tau) lwork).2]> (cells st) |},
   [EvOrgqr (to_int m) (to_int n) (to_int k) a (to_int lda) tau work lwork info]).

(** ** The kernel *)

Definition geqrf_failed : string := "Unsuccessfull geqrf (QR) execution. Info = ".
Definition orgqr_failed : string := "Unsuccessfull orgqr (QR) execution. Info = ".
Definition not_2d : string := "ChainerX QR supports only 2-dimensional arrays.".
Definition no_half : string :=
  "Half-precision (float16) is not supported by QR decomposition".

(** The local function [qr_impl] of [Call].  Its captured variables [mode],
    [dtype], [m], [n], [mn], [Q], [R] and [tau] are arguments here; the type
    tag [pt] only selects the element type.  Where C++ destroys or reassigns
    an array that held the last handle on its block, the [Release] is written
    out. *)
Definition qr_impl
    (geqrf_bufferSize : geqrf_bufferSize_t) (orgqr_bufferSize : orgqr_bufferSize_t)
    (geqrf : geqrf_t) (orgqr : orgqr_t)
    (mode : QRMode.t) (dt : Dtype) (m n mn : Z) (Q R tau : Array)
    : M (Array * Array) :=
  let r_ptr := GetRawOffsetData R in
  let tau_ptr := GetRawOffsetData tau in
  devInfo ← cudaMalloc;
  buffersize_geqrf ← call_geqrf_bufferSize geqrf_bufferSize m n r_ptr n;
  work ← Empty [buffersize_geqrf] dt;
  let work_ptr := GetRawOffsetData work in
  call_geqrf geqrf m n r_ptr m tau_ptr work_ptr buffersize_geqrf devInfo;;
  devInfo_h ← cudaMemcpyDtoH devInfo;
  if negb (devInfo_h =? 0) then
    (* throw: work, then tau, R, Q of Call go out of scope *)
    unwind [work; tau; R; Q] (ChainerxError geqrf_failed devInfo_h)
  else if bool_decide (mode = QRMode.r) then
    (* R = R[:, 0:mn].T *)
    let R1 := Transpose (At R [Slice None None; Slice (Some 0) (Some mn)]) in
    (* R = Triu(R, 0): the working block loses its last handle *)
    R2 ← Triu R1 0;
    Release R;;
    (* return (Q, R): work and tau go out of scope *)
    Release work;;
    Release tau;;
    mret (Q, R2)
  else if bool_decide (mode = QRMode.raw) then
    (* return (R, tau): work and the placeholder Q go out of scope *)
    Release work;;
    Release Q;;
    mret (R, tau)
  else
    sel ← (if bool_decide (mode = QRMode.complete) && (n <? m) then
             Q1 ← Empty [m; m] dt; Release Q;; mret (m, Q1)
           else
             Q1 ← Empty [n; m] dt; Release Q;; mret (mn, Q1));
    let mc := sel.1 in
    let Q1 := sel.2 in
    (* Q[0:n, :] = R *)
    CopyKernel R (At Q1 [Slice (Some 0) (Some n); Slice None None]);;
    let q_ptr := GetRawOffsetData Q1 in
    buffersize_orgqr ← call_orgqr_bufferSize orgqr_bufferSize m mc mn q_ptr m tau_ptr;
    (* work = Empty(...): the stage-2 block loses its last handle;
       work_ptr is not taken again *)
    work2 ← Empty [buffersize_orgqr] dt;
    Release work;;
    call_orgqr orgqr m mc mn q_ptr m tau_ptr work_ptr buffersize_orgqr devInfo;;
    devInfo_h ← cudaMemcpyDtoH devInfo;
    if negb (devInfo_h =? 0) then
      unwind [work2; tau; R; Q1] (ChainerxError orgqr_failed devInfo_h)
    else
      (* Q = Q[0:mc, :].T.Copy() *)
      Q2 ← Copy (Transpose (At Q1 [Slice (Some 0) (Some mc); Slice None None]));
      Release Q1;;
      (* R = R[:, 0:mc].T; R = Triu(R, 0) *)
      let R1 := Transpose (At R [Slice None None; Slice (Some 0) (Some mc)]) in
      R2 ← Triu R1 0;
      Release R;;
      (* return (Q, R): work and tau go out of scope *)
      Release work2;;
      Release tau;;
      mret (Q2, R2).

(** [CudaQRKernel::Call].  [CudaSetDeviceScope] selects the device for the
    duration of the call and touches no memory.  [CHAINERX_NEVER_REACH]
    aborts, so nothing is unwound there. *)
Definition Call (a : Array) (mode : QRMode.t) : M (Array * Array) :=
  let dt := dtype a in
  if negb (ndim a =? 2) then
    throw (DimensionError not_2d)
  else
    let m := nth 0 (shape a) 0 in
    let n := nth 1 (shape a) 0 in
    let mn := Z.min m n in
    Q ← Empty [0] dt;
    R ← Copy (Transpose a);
    tau ← Empty [mn] dt;
    match dtype a with
    | kFloat16 => unwind [tau; R; Q] (DtypeError no_half)
    | kFloat32 =>
        qr_impl (cusolverDnSgeqrf_bufferSize lib) (cusolverDnSorgqr_bufferSize lib)
                (cusolverDnSgeqrf lib) (cusolverDnSorgqr lib) mode dt m n mn Q R tau
    | kFloat64 =>
        qr_impl (cusolverDnDgeqrf_bufferSize lib) (cusolverDnDorgqr_bufferSize lib)
                (cusolverDnDgeqrf lib) (cusolverDnDorgqr lib) mode dt m n mn Q R tau
    | _ => throw NeverReach
    end.

End Kernel.

(** ** Reading a record of device calls *)

(** Number of device allocations of either kind. *)
Fixpoint allocations (tr : list Event) : nat :=
  match tr with
  | [] => 0%nat
  | (EvAllocate _ _ | EvCudaMalloc _) :: tr' => S (allocations tr')
  | _ :: tr' => allocations tr'
  end.

(** The cells given back with [cudaFree]. *)
Fixpoint cuda_frees (tr : list Event) : list ptr :=
  match tr with
  | [] => []
  | EvCudaFree p :: tr' => p :: cuda_frees tr'
  | _ :: tr' => cuda_frees tr'
  end.

(** The status values read back to the host, in order. *)
Fixpoint readbacks (tr : list Event) : list Z :=
  match tr with
  | [] => []
  | EvMemcpyDtoH _ v :: tr' => v :: readbacks tr'
  | _ :: tr' => readbacks tr'
  end.

(** The dimensions [(m, n, k)] of the accumulation calls. *)
Fixpoint orgqr_dims (tr : list Event) : list (Z * Z * Z) :=
  match tr with
  | [] => []
  | EvOrgqr m n k _ _ _ _ _ _ :: tr' => (m, n, k) :: orgqr_dims tr'
  | _ :: tr' => orgqr_dims tr'
  end.

(** The dimensions [(m, n, lda)] of the reflector-generation calls. *)
Fixpoint geqrf_dims (tr : list Event) : list (Z * Z * Z) :=
  match tr with
  | [] => []
  | EvGeqrf m n _ lda _ _ _ _ :: tr' => (m, n, lda) :: geqrf_dims tr'
  | _ :: tr' => geqrf_dims tr'
  end.

(** The scratch pointers handed to the two primitives, in call order. *)
Fixpoint scratch_uses (tr : list Event) : list ptr :=
  match tr with
  | [] => []
  | EvGeqrf _ _ _ _ _ work _ _ :: tr' => work :: scratch_uses tr'
  | EvOrgqr _ _ _ _ _ _ work _ _ :: tr' => work :: scratch_uses tr'
  | _ :: tr' => scratch_uses tr'
  end.

(** Every primitive run is directly followed by the read-back of the status
    cell it wrote. *)
Fixpoint status_read_after_each_stage (tr : list Event) : bool :=
  match tr with
  | [] => true
  | EvGeqrf _ _ _ _ _ _ _ info :: tr' =>
      match tr' with
      | EvMemcpyDtoH p _ :: _ => Nat.eqb p info && status_read_after_each_stage tr'
      | _ => false
      end
  | EvOrgqr _ _ _ _ _ _ _ _ info :: tr' =>
      match tr' with
      | EvMemcpyDtoH p _ :: _ => Nat.eqb p info && status_read_after_each_stage tr'
      | _ => false
      end
  | _ :: tr' => status_read_after_each_stage tr'
  end.

Definition outcome {Scalar : Type} : Type :=
  Res (Array * Array) * @Device Scalar * list Event.

(** The call ended by raising [e] and had allocated nothing on the device. *)
Definition raises_before_allocating {Scalar : Type} (e : Exn) (out : @outcome Scalar) : Prop :=
  out.1.1 = Throw e ∧ allocations out.2 = 0%nat.

(** The array blocks a record of device calls leaves allocated, oldest
    first. *)
Fixpoint drop_block (p : ptr) (live : list ptr) : list ptr :=
  match live with
  | [] => []
  | q :: live' => if Nat.eqb q p then drop_block p live' else q :: drop_block p live'
  end.

Fixpoint live_after (live : list ptr) (tr : list Event) : list ptr :=
  match tr with
  | [] => live
  | EvAllocate p _ :: tr' => live_after (live ++ [p]) tr'
  | EvRelease p :: tr' => live_after (drop_block p live) tr'
  | _ :: tr' => live_after live tr'
  end.

Definition live_blocks (tr : list Event) : list ptr := live_after [] tr.

(** The blocks of the arrays a call hands back. *)
Definition returned_blocks (res : Res (Array * Array)) : list ptr :=
  match res with
  | Ok (A, B) => [data A; data B]
  | Throw _ => []
  end.

(** ** A sample device and library, with integer entries *)

(** Scratch writes that change nothing, and scratch writes that fill every
    block they reach with 9. *)
Definition quiet_scratch : @scratch_t Z :=
  {| scribble := λ _ _ _ blk, blk; scribble_cell := λ _ _ _ v, v |}.


Definition sample_geqrf (info : Z) : @geqrf_t Z :=
  {| geqrf_run := λ m n A lda lwork,
       (Z.succ <$> A, replicate (Z.to_nat (Z.min m n)) 7, info);
     geqrf_scratch := quiet_scratch |}.

Definition sample_orgqr (info : Z) : @orgqr_t Z :=
  {| orgqr_run := λ m n k A lda tau lwork, (Z.pred <$> A, info);
     orgqr_scratch := quiet_scratch |}.

(** A library whose two stages report the given status values. *)
Definition sample_lib (info1 info2 : Z) : @Cusolver Z :=
  {| cusolverDnSgeqrf_bufferSize := λ m n A lda, 5;
     cusolverDnSorgqr_bufferSize := λ m n k A lda tau, 9;
     cusolverDnSgeqrf := sample_geqrf info1;
     cusolverDnSorgqr := sample_orgqr info2;
     cusolverDnDgeqrf_bufferSize := λ m n A lda, 5;
     cusolverDnDorgqr_bufferSize := λ m n k A lda tau, 9;
     cusolverDnDgeqrf := sample_geqrf info1;
     cusolverDnDorgqr := sample_orgqr info2;
     uninit := λ p i, -1;
     uninit_int := λ p, -1 |}.


(** The caller's 3x2 matrix [[1,2],[3,4],[5,6]] sits in block 0. *)
Definition sample_dev : @Device Z :=
  {| next := 1; blocks := {[ 0%nat := [1; 2; 3; 4; 5; 6] ]}; cells := ∅ |}.

Definition sample_a (dt : Dtype) : Array := mkArray dt [3; 2] [2; 1] 0 0.

Definition sample_vector : Array := mkArray kFloat32 [6] [1] 0 0.

(** The same six entries seen as the 2x3 double-precision matrix
    [[1,2,3],[4,5,6]]. *)
Definition sample_wide : Array := mkArray kFloat64 [2; 3] [3; 1] 0 0.

(** An empty matrix with 2^32 + 3 rows and no column. *)
Definition sample_huge : Array := mkArray kFloat32 [4294967299; 0] [0; 1] 0 0.

(** The call on the sample matrix, on the sample device. *)
Abbreviation sample_call lib dt mode :=
  (Call 0 lib (sample_a dt) mode sample_dev).

(** * Properties *)

Section Properties.

Context {Scalar : Type} (zero : Scalar) (lib : @Cusolver Scalar).

Abbreviation M' := (@M Scalar).

(** ** Dispatch on the element type *)

(** The entry points [Call] passes to [qr_impl] for a supported type. *)
Definition geqrf_bufferSize_for (dt : Dtype) : geqrf_bufferSize_t :=
  if decide (dt = kFloat64) then cusolverDnDgeqrf_bufferSize lib
  else cusolverDnSgeqrf_bufferSize lib.
Definition orgqr_bufferSize_for (dt : Dtype) : orgqr_bufferSize_t :=
  if decide (dt = kFloat64) then cusolverDnDorgqr_bufferSize lib
  else cusolverDnSorgqr_bufferSize lib.
Definition geqrf_for (dt : Dtype) : geqrf_t :=
  if decide (dt = kFloat64) then cusolverDnDgeqrf lib else cusolverDnSgeqrf lib.
Definition orgqr_for (dt : Dtype) : orgqr_t :=
  if decide (dt = kFloat64) then cusolverDnDorgqr lib else cusolverDnSorgqr lib.

Definition supported (dt : Dtype) : Prop := dt = kFloat32 ∨ dt = kFloat64.

(** [c], started in [st] after the device calls [pre], ends in an outcome
    accepted by [P]. *)
Definition runs_from {A} (pre : list Event) (c : M' A) (st : Device)
    (P : Res A → Device → list Event → Prop) : Prop :=
  P (c st).1.1 (c st).1.2 (pre ++ (c st).2).

(** Two libraries that cannot be told apart through the single-precision
    entry points, resp. the double-precision ones. *)
Definition agree_on_single (l l' : @Cusolver Scalar) : Prop :=
  cusolverDnSgeqrf_bufferSize l = cusolverDnSgeqrf_bufferSize l'
  ∧ cusolverDnSorgqr_bufferSize l = cusolverDnSorgqr_bufferSize l'
  ∧ cusolverDnSgeqrf l = cusolverDnSgeqrf l'
  ∧ cusolverDnSorgqr l = cusolverDnSorgqr l'
  ∧ uninit l = uninit l' ∧ uninit_int l = uninit_int l'.

Definition agree_on_double (l l' : @Cusolver Scalar) : Prop :=
  cusolverDnDgeqrf_bufferSize l = cusolverDnDgeqrf_bufferSize l'
  ∧ cusolverDnDorgqr_bufferSize l = cusolverDnDorgqr_bufferSize l'
  ∧ cusolverDnDgeqrf l = cusolverDnDgeqrf l'
  ∧ cusolverDnDorgqr l = cusolverDnDorgqr l'
  ∧ uninit l = uninit l' ∧ uninit_int l = uninit_int l'.

Lemma Call_supported (a : Array) (mode : QRMode.t) (m n : Z) :
  shape a = [m; n] → supported (dtype a) →
  Call zero lib a mode =
  (Q ← Empty lib [0] (dtype a);
   R ← Copy zero (Transpose a);
   tau ← Empty lib [Z.min m n] (dtype a);
   qr_impl zero lib
     (geqrf_bufferSize_for (dtype a)) (orgqr_bufferSize_for (dtype a))
     (geqrf_for (dtype a)) (orgqr_for (dtype a))
     mode (dtype a) m n (Z.min m n) Q R tau).
Proof.
  unfold Call, ndim. intros -> [E | E]; rewrite E; reflexivity.
Qed.

(** ** Running the kernel step by step *)

Lemma runs_from_start {A} (c : M' A) st (P : Res A → Device → list Event → Prop) :
  runs_from [] c st P → ∀ res st' tr, c st = (res, st', tr) → P res st' tr.
Proof. unfold runs_from. intros H res st' tr E. rewrite E in H. exact H. Qed.

Lemma runs_bind {A B} (k : A → M' B) (c : M' A) pre st a st1 t1 P :
  c st = (Ok a, st1, t1) →
  runs_from (pre ++ t1) (k a) st1 P →
  runs_from pre (c ≫= k) st P.
Proof.
  unfold runs_from, mbind, M_bind, bind. intros ->.
  destruct (k a st1) as [[r2 st2] t2]. cbn. by rewrite app_assoc.
Qed.

Lemma runs_assoc {A B C} (c : M' A) (k1 : A → M' B) (k2 : B → M' C) pre st P :
  runs_from pre (c ≫= λ x, k1 x ≫= k2) st P →
  runs_from pre ((c ≫= k1) ≫= k2) st P.
Proof.
  unfold runs_from, mbind, M_bind, bind.
  destruct (c st) as [[[a|e] st1] t1]; cbn; [|done].
  destruct (k1 a st1) as [[[b|e] st2] t2]; cbn; [|done].
  destruct (k2 b st2) as [[r3 st3] t3]; cbn.
  by rewrite (assoc_L (++) t1 t2 t3).
Qed.

Lemma runs_ret {A} (x : A) pre st (P : Res A → Device → list Event → Prop) :
  P (Ok x) st pre → runs_from pre (mret x : M' A) st P.
Proof. unfold runs_from. cbn. by rewrite app_nil_r. Qed.

Lemma runs_throw {A} (e : Exn) pre st (P : Res A → Device → list Event → Prop) :
  P (Throw e) st pre → runs_from pre (throw e : M' A) st P.
Proof. unfold runs_from. cbn. by rewrite app_nil_r. Qed.

Lemma run_ret {A} (x : A) (st : @Device Scalar) : (mret x : M' A) st = (Ok x, st, []).
Proof. reflexivity. Qed.

Lemma run_Empty sh dt st :
  Empty lib sh dt st =
  (Ok (mkArray dt sh (c_strides sh) 0 (next st)),
   {| next := S (next st);
      blocks := <[next st := uninit lib (next st) <$> seq 0 (Z.to_nat (numel sh))]> (blocks st);
      cells := cells st |},
   [EvAllocate (next st) (numel sh)]).
Proof. reflexivity. Qed.

Lemma run_Copy a st :
  Copy zero a st =
  (Ok (mkArray (dtype a) (shape a) (c_strides (shape a)) 0 (next st)),
   {| next := S (next st);
      blocks := <[next st := elements_in zero (block st (data a)) a]> (blocks st);
      cells := cells st |},
   [EvAllocate (next st) (numel (shape a))]).
Proof. reflexivity. Qed.

Lemma run_Triu a k st :
  Triu zero a k st =
  (Ok (mkArray (dtype a) (shape a) (c_strides (shape a)) 0 (next st)),
   {| next := S (next st);
      blocks := <[next st := triu_in zero k (block st (data a)) a]> (blocks st);
      cells := cells st |},
   [EvAllocate (next st) (numel (shape a))]).
Proof. reflexivity. Qed.

Lemma run_Release a (st : @Device Scalar) :
  Release a st =
  (Ok tt, {| next := next st; blocks := delete (data a) (blocks st); cells := cells st |},
   [EvRelease (data a)]).
Proof. reflexivity. Qed.

Lemma run_CopyKernel src dst st :
  CopyKernel zero src dst st =
  (Ok tt,
   {| next := next st;
      blocks := <[data dst := copy_in zero (block st (data src)) src (block st (data dst)) dst]>
                  (blocks st);
      cells := cells st |},
   []).
Proof. reflexivity. Qed.

Lemma run_cudaMalloc st :
  cudaMalloc lib st =
  (Ok (next st),
   {| next := S (next st); blocks := blocks st;
      cells := <[next st := uninit_int lib (next st)]> (cells st) |},
   [EvCudaMalloc (next st)]).
Proof. reflexivity. Qed.

Lemma run_cudaMemcpyDtoH p (st : @Device Scalar) :
  cudaMemcpyDtoH p st =
  (Ok (default 0 (cells st !! p)), st, [EvMemcpyDtoH p (default 0 (cells st !! p))]).
Proof. reflexivity. Qed.

Lemma run_geqrf_bufferSize f m n a lda (st : @Device Scalar) :
  call_geqrf_bufferSize f m n a lda st =
  (Ok (f (to_int m) (to_int n) (block st a) (to_int lda)), st,
   [EvGeqrfBufferSize (to_int m) (to_int n) a (to_int lda)]).
Proof. reflexivity. Qed.

(** A primitive handed a live scratch block of at least [lwork] entries
    writes its results and, through the scratch pointer, in that block. *)
Lemma run_geqrf_fits f m n a lda tau work lwork info (st : @Device Scalar) :
  scratch_ok st work lwork = true →
  call_geqrf f m n a lda tau work lwork info st =
  (Ok tt,
   {| next := next st;
      blocks :=
        alter (scribble (geqrf_scratch f) st
                 (EvGeqrf (to_int m) (to_int n) a (to_int lda) tau work lwork info) work)
          work
          (<[tau := (geqrf_run f (to_int m) (to_int n) (block st a) (to_int lda) lwork).1.2]>
             (<[a := (geqrf_run f (to_int m) (to_int n) (block st a) (to_int lda) lwork).1.1]>
                (blocks st)));
      cells :=
        <[info := (geqrf_run f (to_int m) (to_int n) (block st a) (to_int lda) lwork).2]>
          (cells st) |},
   [EvGeqrf (to_int m) (to_int n) a (to_int lda) tau work lwork info]).
Proof. unfold call_geqrf, through_scratch. by intros ->. Qed.

Lemma run_orgqr_bufferSize f m n k a lda tau (st : @Device Scalar) :
  call_orgqr_bufferSize f m n k a lda tau st =
  (Ok (f (to_int m) (to_int n) (to_int k) (block st a) (to_int lda) (block st tau)), st,
   [EvOrgqrBufferSize (to_int m) (to_int n) (to_int k) a (to_int lda) tau]).
Proof. reflexivity. Qed.

(** A primitive handed a scratch pointer that names no live block of
    [lwork] entries writes its results, and its scratch writes reach every
    live block and cell. *)
Lemma run_orgqr_stray f m n k a lda tau work lwork info (st : @Device Scalar) :
  scratch_ok st work lwork = false →
  call_orgqr f m n k a lda tau work lwork info st =
  (Ok tt,
   {| next := next st;
      blocks :=
        scribble_all
          (scribble (orgqr_scratch f) st
             (EvOrgqr (to_int m) (to_int n) (to_int k) a (to_int lda) tau work lwork info))
          (<[a := (orgqr_run f (to_int m) (to_int n) (to_int k) (block st a) (to_int lda)
                     (block st tau) lwork).1]> (blocks st));
      cells :=
        scribble_all
          (scribble_cell (orgqr_scratch f) st
             (EvOrgqr (to_int m) (to_int n) (to_int k) a (to_int lda) tau work lwork info))
          (<[info := (orgqr_run f (to_int m) (to_int n) (to_int k) (block st a) (to_int lda)
                        (block st tau) lwork).2]> (cells st)) |},
   [EvOrgqr (to_int m) (to_int n) (to_int k) a (to_int lda) tau work lwork info]).
Proof. unfold call_orgqr, through_scratch. by intros ->. Qed.

Lemma lookup_scribble_all {A} (f : ptr → A → A) (mem : gmap nat A) (p : ptr) :
  scribble_all f mem !! p = f p <$> mem !! p.
Proof.
  unfold scribble_all. rewrite map_lookup_imap. by destruct (mem !! p).
Qed.

Lemma fmap_Some_apply {A B} (f : A → B) (x : A) : f <$> Some x = Some (f x).
Proof. reflexivity. Qed.

Lemma fmap_None_apply {A B} (f : A → B) : f <$> (None : option A) = None.
Proof. reflexivity. Qed.

(** Lookups in a store that was built by inserting and deleting at
    identifiers counted from [next st]. *)
Ltac norm_store :=
  unfold block;
  cbn [next blocks cells data dtype shape strides offset Transpose At
       zip_with reverse rev_append app fst snd];
  repeat match goal with
  | |- context [<[?i := ?x]> ?m !! ?j] =>
      first [ rewrite (lookup_insert_eq m i x)
            | rewrite (lookup_insert_ne m i j x) by lia ]
  | |- context [delete ?i ?m !! ?j] =>
      first [ rewrite (lookup_delete_eq m i)
            | rewrite (lookup_delete_ne m i j) by lia ]
  | |- context [alter ?f ?i ?m !! ?j] =>
      first [ rewrite (lookup_alter_eq f m i)
            | rewrite (lookup_alter_ne f m i j) by lia ]
  | |- context [scribble_all ?f ?m !! ?j] => rewrite (lookup_scribble_all f m j)
  | |- context [?f <$> Some ?x] => rewrite (fmap_Some_apply f x)
  | |- context [?f <$> @None ?A] => rewrite (@fmap_None_apply A _ f)
  end;
  cbn [default from_option id].

(** The scratch pointer a primitive is handed: a live block that is large
    enough, or a released one. *)
Ltac scratch_side :=
  unfold scratch_ok; norm_store; cbv beta iota;
  first [ reflexivity
        | apply Z.leb_le; rewrite length_fmap, length_seq; unfold numel; cbn [foldr]; lia ].

(** Name a value, reusing the name it got in an earlier run. *)
Ltac name_value t :=
  first [ match goal with x := ?b |- _ => constr_eq b t; change t with x end
        | set t ].

(** Name what the library returned, and the caller's entries. *)
Ltac name_values :=
  repeat match goal with
  | |- context [elements_in ?z (default [] ?o) ?a] =>
      name_value (elements_in z (default [] o) a)
  | |- context [geqrf_bufferSize_for ?dt ?a ?b ?c ?d] =>
      name_value (geqrf_bufferSize_for dt a b c d)
  | |- context [geqrf_run ?f ?a ?b ?c ?d ?e] =>
      name_value (geqrf_run f a b c d e)
  | |- context [orgqr_bufferSize_for ?dt ?a ?b ?c ?d ?e ?f] =>
      name_value (orgqr_bufferSize_for dt a b c d e f)
  | |- context [orgqr_run ?f ?a ?b ?c ?d ?e ?g ?h] =>
      name_value (orgqr_run f a b c d e g h)
  | |- context [scribble ?s ?st ?ev] => name_value (scribble s st ev)
  | |- context [scribble_cell ?s ?st ?ev] => name_value (scribble_cell s st ev)
  end.

Ltac prim :=
  first [ apply run_Empty | apply run_Copy | apply run_Triu | apply run_Release
        | apply run_CopyKernel | apply run_cudaMalloc | apply run_cudaMemcpyDtoH
        | apply run_geqrf_bufferSize | apply run_geqrf_fits; scratch_side
        | apply run_orgqr_bufferSize | apply run_orgqr_stray; scratch_side
        | apply run_ret ].

Ltac split_status v :=
  let E := fresh "Hinfo" in destruct (Z.eqb_spec v 0) as [E|E]; cbn [negb]; cbv beta iota.

Ltac decide_mode P :=
  first [ rewrite (bool_decide_eq_true_2 P) by reflexivity
        | rewrite (bool_decide_eq_false_2 P) by discriminate ];
  cbn [andb]; cbv beta iota.

Ltac split_bool b :=
  let E := fresh "Hcase" in destruct b eqn:E; cbv beta iota.

Ltac step :=
  lazymatch goal with
  | |- runs_from _ (mbind _ (mbind _ _)) _ _ => apply runs_assoc
  | |- runs_from _ (mbind _ (if bool_decide ?P && _ then _ else _)) _ _ => decide_mode P
  | |- runs_from _ (mbind _ (if ?b then _ else _)) _ _ => split_bool b
  | |- runs_from _ (mbind _ _) _ _ =>
      eapply runs_bind; [prim|]; cbn beta; norm_store; name_values
  | |- runs_from _ (mret _) _ _ => apply runs_ret
  | |- runs_from _ (throw _) _ _ => apply runs_throw
  | |- runs_from _ (if negb (?v =? 0) then _ else _) _ _ => split_status v
  | |- runs_from _ (if bool_decide ?P then _ else _) _ _ => decide_mode P
  | |- runs_from _ (unwind _ _) _ _ => cbn [unwind]
  | |- runs_from _ ?c _ _ => progress unfold qr_impl, GetRawOffsetData
  end.

(** Run [Call] on a two-dimensional array of a supported element type. *)
Ltac qr_run :=
  match goal with
  | |- context [Call _ _ ?a ?mode] =>
      rewrite (Call_supported a mode _ _ eq_refl ltac:(assumption))
  end;
  cbn [dtype];
  refine (runs_from_start _ _ (λ res st' tr, _) _); repeat step.

(** ** Slices and row-major listings *)

Lemma slice_len_all d : 0 ≤ d → slice_len d (Slice None None) = d.
Proof. unfold slice_len, clamp. cbn. intros. repeat case_match; lia. Qed.

Lemma slice_len_prefix d k :
  0 ≤ d → 0 ≤ k → slice_len d (Slice (Some 0) (Some k)) = Z.min k d.
Proof. unfold slice_len, clamp. cbn. intros. repeat case_match; lia. Qed.

Lemma bind_lookup_row {A B} (f : A → list B) (c : nat) (l : list A) (i j : nat) :
  (∀ y, length (f y) = c) → (j < c)%nat →
  (l ≫= f) !! (i * c + j)%nat = l !! i ≫= λ x, f x !! j.
Proof.
  intros Hlen Hj. revert i. induction l as [|y l IH]; intros i; [done|].
  cbn [mbind list_bind]. destruct i as [|i].
  - cbn. rewrite lookup_app_l by (rewrite Hlen; lia). done.
  - rewrite lookup_app_r by (rewrite Hlen; lia). rewrite Hlen.
    replace (S i * c + j - c)%nat with (i * c + j)%nat by lia. apply IH.
Qed.

Lemma indices_vector cols : indices [cols] = (λ j, [j]) <$> range cols.
Proof.
  cbn [indices]. induction (range cols) as [|j l IH]; [done|].
  cbn. by rewrite <- IH.
Qed.

(** Entry [(i, j)] of a [rows] x [cols] listing sits at [i * cols + j]. *)
Lemma indices_matrix_lookup rows cols i j :
  0 ≤ i < rows → 0 ≤ j < cols →
  indices [rows; cols] !! Z.to_nat (i * cols + j) = Some [i; j].
Proof.
  intros Hi Hj. change (indices [rows; cols])
    with (range rows ≫= λ i, cons i <$> indices [cols]).
  replace (Z.to_nat (i * cols + j))
    with (Z.to_nat i * Z.to_nat cols + Z.to_nat j)%nat by lia.
  rewrite (bind_lookup_row _ (Z.to_nat cols)).
  - unfold range at 1. rewrite lookup_seqZ_lt by lia.
    cbn [mbind option_bind].
    rewrite list_lookup_fmap, indices_vector, list_lookup_fmap.
    unfold range. rewrite lookup_seqZ_lt by lia. cbn.
    do 3 f_equal; lia.
  - intros y. rewrite length_fmap, indices_vector, length_fmap.
    unfold range. apply length_seqZ.
  - lia.
Qed.

(** Below the [k]-th diagonal a [Triu] result holds zero. *)
Lemma triu_in_below k blk (v : Array) dt p rows cols i j :
  shape v = [rows; cols] →
  0 ≤ i < rows → 0 ≤ j < cols → j - i < k →
  get_in zero (triu_in zero k blk v)
    (mkArray dt [rows; cols] (c_strides [rows; cols]) 0 p) [i; j] = zero.
Proof.
  intros Hv Hi Hj Hk. unfold get_in, position, triu_in, numel. cbn.
  rewrite Hv, nth_lookup.
  replace (0 + (i * (cols * 1) + (j * 1 + 0))) with (i * cols + j) by lia.
  rewrite list_lookup_fmap, indices_matrix_lookup by done. cbn.
  destruct (Z.leb_spec k (j - i)); [lia|done].
Qed.

(** The zero below the diagonal is stored in the block: the position is in
    range. *)
Lemma triu_in_below_stored k blk (v : Array) dt p rows cols i j :
  shape v = [rows; cols] →
  0 ≤ i < rows → 0 ≤ j < cols → j - i < k →
  triu_in zero k blk v
    !! Z.to_nat (position (mkArray dt [rows; cols] (c_strides [rows; cols]) 0 p) [i; j])
  = Some zero.
Proof.
  intros Hv Hi Hj Hk. unfold position, triu_in, numel. cbn.
  rewrite Hv.
  replace (0 + (i * (cols * 1) + (j * 1 + 0))) with (i * cols + j) by lia.
  rewrite list_lookup_fmap, indices_matrix_lookup by done. cbn.
  destruct (Z.leb_spec k (j - i)); [lia|done].
Qed.

Lemma length_bind_rows {A B} (f : A → list B) (c : nat) (l : list A) :
  (∀ y, length (f y) = c) → length (l ≫= f) = (length l * c)%nat.
Proof.
  intros Hlen. induction l as [|y l IH]; [done|].
  cbn [mbind list_bind length]. rewrite length_app, Hlen.
  change (length (l ≫= f) = (length l * c)%nat) in IH. rewrite IH. lia.
Qed.

Lemma length_indices_matrix n m :
  length (indices [n; m]) = (Z.to_nat n * Z.to_nat m)%nat.
Proof.
  change (indices [n; m]) with (range n ≫= λ i, cons i <$> indices [m]).
  rewrite (length_bind_rows _ (Z.to_nat m)).
  - unfold range. by rewrite length_seqZ.
  - intros y. rewrite length_fmap, indices_vector, length_fmap.
    unfold range. apply length_seqZ.
Qed.

(** ** Rejected inputs *)

(** C8. An input whose rank is not 2 makes the operation raise the shape
    error; no device call of any kind, hence no allocation, has been made and
    the device is as it was. *)
Theorem non_2d_rejected_without_allocation st a mode :
  ndim a ≠ 2 →
  Call zero lib a mode st = (Throw (DimensionError not_2d), st, [])
  ∧ raises_before_allocating (DimensionError not_2d) (Call zero lib a mode st).
Proof.
  intros Hnd.
  assert (E : Call zero lib a mode st = (Throw (DimensionError not_2d), st, [])).
  { unfold Call. destruct (Z.eqb_spec (ndim a) 2) as [?|_]; [done|reflexivity]. }
  split; [exact E|]. rewrite E. by split.
Qed.

(** C2, as amended. A two-dimensional half-precision input makes the
    operation raise the unsupported-type error before the status cell or any
    scratch buffer is allocated and before any library primitive runs; the Q
    placeholder, the transposed working copy and the tau buffer have been
    allocated by then, and they are released as the error propagates. *)
Theorem half_precision_rejected_before_status_cell st a mode m n :
  shape a = [m; n] →
  dtype a = kFloat16 →
  ∃ st',
    Call zero lib a mode st =
      (Throw (DtypeError no_half), st',
       [EvAllocate (next st) (numel [0]);
        EvAllocate (1 + next st)%nat (numel [n; m]);
        EvAllocate (2 + next st)%nat (numel [Z.min m n]);
        EvRelease (2 + next st)%nat;
        EvRelease (1 + next st)%nat;
        EvRelease (next st)])
    ∧ cells st' = cells st
    ∧ blocks st' !! next st = None
    ∧ blocks st' !! (1 + next st)%nat = None
    ∧ blocks st' !! (2 + next st)%nat = None.
Proof.
  destruct a as [dt sh str off p]; cbn [shape dtype]. intros -> ->.
  eexists. split.
  - unfold Call, ndim. cbn [shape dtype length nth negb].
    change (Z.of_nat 2 =? 2) with true. reflexivity.
  - cbn [cells blocks next data]. split; [done|].
    repeat split; repeat (rewrite lookup_delete_ne by lia); apply lookup_delete_eq.
Qed.

(** ** The status cell *)

(** C1 fails on the code. On every exit path of a call on a two-dimensional
    single- or double-precision input, the status cell obtained from
    [cudaMalloc] is still allocated when the call returns or raises: the call
    never gives a cell back. *)
Theorem status_cell_left_allocated st a mode m n res st' tr :
  shape a = [m; n] →
  supported (dtype a) →
  Call zero lib a mode st = (res, st', tr) →
  In (EvCudaMalloc (3 + next st)%nat) tr
  ∧ cuda_frees tr = []
  ∧ is_Some (cells st' !! (3 + next st)%nat).
Proof.
  intros Hs Hd. revert res st' tr.
  destruct a as [dt sh str off p]; cbn [shape dtype] in *; subst sh.
  destruct mode; qr_run.
  all: cbn [cells cuda_frees In]; norm_store; auto 10.
Qed.

(** ** The two stages *)

(** C3 fails on the code. In a reduced- or complete-mode call that reaches
    the accumulation stage, a fresh scratch block of the queried size [S2] is
    allocated and the stage-2 scratch block is released, and the accumulation
    primitive is then handed the pointer of the released stage-2 block
    together with the size [S2]; the fresh block is handed to no primitive.
    The dimensions in the record are the ones the library receives. *)
Theorem accumulation_given_released_scratch st a mode m n res st' tr :
  shape a = [m; n] →
  supported (dtype a) →
  mode = QRMode.reduced ∨ mode = QRMode.complete →
  Call zero lib a mode st = (res, st', tr) →
  head (readbacks tr) = Some 0 →
  let full := bool_decide (mode = QRMode.complete) && (n <? m) in
  let mc := if full then m else Z.min m n in
  let p := next st in
  scratch_uses tr = [(4 + p)%nat; (4 + p)%nat]
  ∧ ∃ S1 S2 post,
    tr =
      [EvAllocate p (numel [0]);
       EvAllocate (1 + p)%nat (numel [n; m]);
       EvAllocate (2 + p)%nat (numel [Z.min m n]);
       EvCudaMalloc (3 + p)%nat;
       EvGeqrfBufferSize (to_int m) (to_int n) (1 + p)%nat (to_int n);
       EvAllocate (4 + p)%nat (numel [S1]);
       EvGeqrf (to_int m) (to_int n) (1 + p)%nat (to_int m)
         (2 + p)%nat (4 + p)%nat S1 (3 + p)%nat;
       EvMemcpyDtoH (3 + p)%nat 0;
       EvAllocate (5 + p)%nat (numel [if full then m else n; m]);
       EvRelease p;
       EvOrgqrBufferSize (to_int m) (to_int mc) (to_int (Z.min m n))
         (5 + p)%nat (to_int m) (2 + p)%nat;
       EvAllocate (6 + p)%nat (numel [S2]);
       EvRelease (4 + p)%nat;
       EvOrgqr (to_int m) (to_int mc) (to_int (Z.min m n))
         (5 + p)%nat (to_int m) (2 + p)%nat (4 + p)%nat S2 (3 + p)%nat]
      ++ post.
Proof.
  intros Hs Hd Hm. revert res st' tr.
  destruct a as [dt sh str off p]; cbn [shape dtype] in *; subst sh.
  destruct Hm as [-> | ->]; qr_run.
  all: cbn [readbacks head]; intros [= E]; try done.
  all: split; [reflexivity|].
  all: rewrite E; do 3 eexists; reflexivity.
Qed.

(** C4. The status cell is read back right after each primitive run.  A
    nonzero value read after the reflector-generation stage makes the
    operation raise the decomposition error carrying that value, with no
    accumulation call made and nothing further read; a nonzero value read
    after the accumulation stage makes it raise the decomposition error
    carrying that value. *)
Theorem status_checked_after_each_stage st a mode m n res st' tr :
  shape a = [m; n] →
  supported (dtype a) →
  Call zero lib a mode st = (res, st', tr) →
  status_read_after_each_stage tr = true
  ∧ readbacks tr ≠ []
  ∧ (∀ v rest, readbacks tr = v :: rest → v ≠ 0 →
       res = Throw (ChainerxError geqrf_failed v) ∧ orgqr_dims tr = [] ∧ rest = [])
  ∧ (∀ v rest, readbacks tr = 0 :: v :: rest → v ≠ 0 →
       res = Throw (ChainerxError orgqr_failed v)).
Proof.
  intros Hs Hd. revert res st' tr.
  destruct a as [dt sh str off p]; cbn [shape dtype] in *; subst sh.
  destruct mode; qr_run.
  all: cbn [status_read_after_each_stage readbacks orgqr_dims andb];
    rewrite ?Nat.eqb_refl; cbn [andb].
  all: split; [reflexivity|]; split; [done|].
  all: split; intros v rest E Hv; inversion E; subst v; try subst rest; done.
Qed.

(** ** What is returned *)

(** C7. With both stages reporting status zero, a call on an m x n input
    returns: in reduced mode Q of shape (m, min(m,n)) and R of shape
    (min(m,n), n); in complete mode with m > n a square Q of shape (m, m),
    accumulated with width mc = m; in complete mode with m = n a Q of shape
    (m, m), accumulated on the economy branch with width mc = min(m,n).  The
    accumulation dimensions are recorded as the library receives them. *)
Theorem factor_shapes st a mode m n res st' tr :
  shape a = [m; n] →
  supported (dtype a) →
  0 ≤ m → 0 ≤ n →
  Call zero lib a mode st = (res, st', tr) →
  Forall (λ v, v = 0) (readbacks tr) →
  (mode = QRMode.reduced →
     ∃ Q R, res = Ok (Q, R)
       ∧ shape Q = [m; Z.min m n] ∧ shape R = [Z.min m n; n])
  ∧ (mode = QRMode.complete → n < m →
     ∃ Q R, res = Ok (Q, R)
       ∧ shape Q = [m; m]
       ∧ orgqr_dims tr = [(to_int m, to_int m, to_int (Z.min m n))])
  ∧ (mode = QRMode.complete → m = n →
     ∃ Q R, res = Ok (Q, R)
       ∧ shape Q = [m; m]
       ∧ orgqr_dims tr = [(to_int m, to_int (Z.min m n), to_int (Z.min m n))]).
Proof.
  intros Hs Hd Hm Hn. revert res st' tr.
  destruct a as [dt sh str off p]; cbn [shape dtype] in *; subst sh.
  destruct mode; qr_run.
  all: cbn [readbacks orgqr_dims]; intros HF.
  all: repeat match goal with
       | H : Forall _ (_ :: _) |- _ => apply Forall_cons_1 in H; destruct H
       end; try done.
  all: repeat split; try discriminate; intros.
  all: try (apply Z.ltb_lt in Hcase); try (apply Z.ltb_ge in Hcase); try lia.
  all: do 2 eexists; split; [reflexivity|]; cbn [shape reverse rev_append].
  all: rewrite ?slice_len_all, ?slice_len_prefix by lia.
  all: repeat split; first [reflexivity | f_equal; lia | do 2 f_equal; lia].
Qed.

(** C5. In every mode other than raw, with the stages that run reporting
    status zero, the call returns, and the R it returns is a matrix held in a
    live block of exactly rows x cols entries, whose every entry strictly
    below the main diagonal is a stored zero. *)
Theorem returned_R_upper_triangular st a mode m n res st' tr :
  shape a = [m; n] →
  supported (dtype a) →
  mode ≠ QRMode.raw →
  Call zero lib a mode st = (res, st', tr) →
  Forall (λ v, v = 0) (readbacks tr) →
  ∃ Q R rows cols blk,
    res = Ok (Q, R)
    ∧ shape R = [rows; cols]
    ∧ blocks st' !! data R = Some blk
    ∧ length blk = (Z.to_nat rows * Z.to_nat cols)%nat
    ∧ ∀ i j, 0 ≤ j → j < i → i < rows → j < cols →
        get zero st' R [i; j] = zero
        ∧ blk !! Z.to_nat (position R [i; j]) = Some zero.
Proof.
  intros Hs Hd Hraw. revert res st' tr.
  destruct a as [dt sh str off p]; cbn [shape dtype] in *; subst sh.
  destruct mode; try done; qr_run.
  all: cbn [readbacks]; intros HF.
  all: repeat match goal with
       | H : Forall _ (_ :: _) |- _ => apply Forall_cons_1 in H; destruct H
       end; try done.
  all: do 5 eexists; split; [reflexivity|]; cbn [shape reverse rev_append].
  all: split; [reflexivity|].
  all: split; [norm_store; reflexivity|].
  all: split;
    [ unfold triu_in; rewrite length_fmap; cbn [shape reverse rev_append];
      apply length_indices_matrix |].
  all: intros i j Hj Hij Hi Hc; split.
  all: first [ unfold get; norm_store; apply triu_in_below; [reflexivity|lia..]
             | apply triu_in_below_stored; [reflexivity|lia..] ].
Qed.


(** C10. With the reflector-generation stage reporting status zero, a
    raw-mode call on an m x n input held in an earlier block returns first
    the working buffer, of shape (n, m): the block the transposed copy of the
    input was put in, on which the primitive ran with the dimensions m and n
    as converted to its [int] parameters, holding exactly what the primitive
    left there; and second the tau buffer, one-dimensional of length
    min(m,n), holding the primitive's tau.  The Q returned in r mode is a
    one-dimensional array of shape (0). *)
Theorem raw_mode_returns_packed_buffers st a m n :
  shape a = [m; n] →
  supported (dtype a) →
  (data a < next st)%nat →
  let W := elements zero st (Transpose a) in
  let S1 := geqrf_bufferSize_for (dtype a) (to_int m) (to_int n) W (to_int n) in
  let F := geqrf_run (geqrf_for (dtype a)) (to_int m) (to_int n) W (to_int m) S1 in
  let p := next st in
  (∀ res st' tr,
     Call zero lib a QRMode.raw st = (res, st', tr) →
     Forall (λ v, v = 0) (readbacks tr) →
     res = Ok (mkArray (dtype a) [n; m] (c_strides [n; m]) 0 (1 + p)%nat,
               mkArray (dtype a) [Z.min m n] (c_strides [Z.min m n]) 0 (2 + p)%nat)
     ∧ In (EvAllocate (1 + p)%nat (numel [n; m])) tr
     ∧ In (EvGeqrf (to_int m) (to_int n) (1 + p)%nat (to_int m)
             (2 + p)%nat (4 + p)%nat S1 (3 + p)%nat) tr
     ∧ blocks st' !! (1 + p)%nat = Some F.1.1
     ∧ blocks st' !! (2 + p)%nat = Some F.1.2)
  ∧ (∀ res st' tr,
       Call zero lib a QRMode.r st = (res, st', tr) →
       Forall (λ v, v = 0) (readbacks tr) →
       ∃ Q R, res = Ok (Q, R) ∧ shape Q = [0] ∧ ndim Q = 1).
Proof.
  intros Hs Hd.
  destruct a as [dt sh str off q]; cbn [shape dtype data] in *; subst sh.
  intros Hq; cbv zeta. split.
  - qr_run.
    all: cbn [readbacks]; intros HF; apply Forall_cons_1 in HF; destruct HF; try done.
    split; [reflexivity|]. split; [cbn; tauto|]. split; [cbn; tauto|].
    cbn [blocks]. split; norm_store; reflexivity.
  - qr_run.
    all: cbn [readbacks]; intros HF; apply Forall_cons_1 in HF; destruct HF; try done.
    do 2 eexists. split; [reflexivity|]. split; reflexivity.
Qed.

(** ** Further properties of the kernel *)

(** Run [Call] on a two-dimensional array whose element type is a
    constructor. *)
Ltac call_run :=
  unfold Call, ndim; cbn [shape dtype length nth negb];
  change (Z.of_nat 2 =? 2) with true; cbn [negb];
  refine (runs_from_start _ _ (λ res st' tr, _) _); repeat step.

(** Run [Call] on a two-dimensional array, whatever its element type. *)
Ltac any_run dt :=
  destruct dt;
  first [ assert (supported kFloat32) by (left; reflexivity); qr_run
        | assert (supported kFloat64) by (right; reflexivity); qr_run
        | call_run ].

Lemma shape_of_ndim (sh : list Z) :
  Z.of_nat (length sh) = 2 → ∃ m n, sh = [m; n].
Proof.
  destruct sh as [|m [|n [|x sh]]]; cbn [length]; try lia. eauto.
Qed.

(** X1. Whatever the input and the mode, a call that does not run the
    accumulation primitive leaves every block and every cell that was
    allocated before the call as it was: the caller's array is not written
    to, reflector generation working on a copy and within its own scratch
    block. *)
Theorem earlier_storage_untouched st a mode res st' tr :
  Call zero lib a mode st = (res, st', tr) →
  orgqr_dims tr = [] →
  ∀ p, (p < next st)%nat →
    blocks st' !! p = blocks st !! p ∧ cells st' !! p = cells st !! p.
Proof.
  revert res st' tr. destruct a as [dt sh str off q].
  destruct (Z.eqb_spec (ndim (mkArray dt sh str off q)) 2) as [E|E].
  - destruct (shape_of_ndim sh E) as (m & n & ->). clear E.
    destruct mode; any_run dt.
    all: cbn [orgqr_dims]; intros Hno; try discriminate Hno.
    all: intros b Hb; cbn [blocks cells]; split; norm_store; reflexivity.
  - unfold Call. destruct (Z.eqb_spec (ndim (mkArray dt sh str off q)) 2); [done|].
    intros res st' tr [= <- <- <-]. done.
Qed.

(** Decide the pointer comparisons of [drop_block] on identifiers counted
    from [next st]. *)
Ltac count_live :=
  unfold live_blocks;
  repeat (cbn [live_after drop_block app];
          rewrite ?Nat.eqb_refl;
          repeat match goal with
          | |- context [Nat.eqb ?a ?b] => rewrite (proj2 (Nat.eqb_neq a b)) by lia
          end).

(** X2. On a two-dimensional input of a floating-point type, whichever way
    the call ends, the array blocks it allocated and did not release are
    exactly the blocks of the two arrays it returns; when it raises, it has
    released every array block it allocated. *)
Theorem array_storage_balanced st a mode m n res st' tr :
  shape a = [m; n] →
  dtype a = kFloat16 ∨ supported (dtype a) →
  Call zero lib a mode st = (res, st', tr) →
  live_blocks tr = returned_blocks res.
Proof.
  intros Hs Hd. revert res st' tr.
  destruct a as [dt sh str off q]; cbn [shape dtype] in *; subst sh.
  destruct Hd as [-> | Hd].
  - destruct mode; call_run; count_live; reflexivity.
  - destruct mode; qr_run; count_live; reflexivity.
Qed.

(** X3. A two-dimensional input whose element type is none of the three
    floating-point kinds runs into the unreachable-case fault, not into an
    error: the three arrays have been allocated and are not released, no
    status cell is allocated and no library primitive is run. *)
Theorem other_types_hit_never_reach st a mode m n :
  shape a = [m; n] →
  dtype a ≠ kFloat16 → dtype a ≠ kFloat32 → dtype a ≠ kFloat64 →
  ∃ st',
    Call zero lib a mode st =
      (Throw NeverReach, st',
       [EvAllocate (next st) (numel [0]);
        EvAllocate (1 + next st)%nat (numel [n; m]);
        EvAllocate (2 + next st)%nat (numel [Z.min m n])])
    ∧ cells st' = cells st.
Proof.
  destruct a as [dt sh str off q]; cbn [shape dtype]. intros -> H16 H32 H64.
  destruct dt; try done.
  all: eexists; split;
    [ unfold Call, ndim; cbn [shape dtype length nth negb];
      change (Z.of_nat 2 =? 2) with true; reflexivity
    | reflexivity ].
Qed.

(** X4. The element type selects the entry points: a single-precision call
    depends on the library only through the single-precision entry points,
    and a double-precision call only through the double-precision ones. *)
Theorem dispatch_by_element_type (lib' : @Cusolver Scalar) st a mode :
  (dtype a = kFloat32 → agree_on_single lib lib' →
     Call zero lib a mode st = Call zero lib' a mode st)
  ∧ (dtype a = kFloat64 → agree_on_double lib lib' →
     Call zero lib a mode st = Call zero lib' a mode st).
Proof.
  destruct lib, lib'. unfold agree_on_single, agree_on_double. cbn.
  split; intros Hd (H1 & H2 & H3 & H4 & H5 & H6); subst.
  all: unfold Call; rewrite Hd; destruct (negb (ndim a =? 2)); reflexivity.
Qed.

(** X5. On a two-dimensional single- or double-precision input the
    reflector-generation primitive runs exactly once; the accumulation
    primitive runs at most once, and it runs exactly when the mode is reduced
    or complete and the first status read back is zero. *)
Theorem accumulation_runs_when st a mode m n res st' tr :
  shape a = [m; n] →
  supported (dtype a) →
  Call zero lib a mode st = (res, st', tr) →
  length (scratch_uses tr) = S (length (orgqr_dims tr))
  ∧ (length (orgqr_dims tr) ≤ 1)%nat
  ∧ (orgqr_dims tr ≠ [] ↔
       (mode = QRMode.reduced ∨ mode = QRMode.complete)
       ∧ head (readbacks tr) = Some 0).
Proof.
  intros Hs Hd. revert res st' tr.
  destruct a as [dt sh str off q]; cbn [shape dtype] in *; subst sh.
  destruct mode; qr_run.
  all: cbn [scratch_uses orgqr_dims readbacks head length].
  all: split; [reflexivity|]; split; [lia|].
  all: split; [intros H|intros [[?|?] [= ?]]]; try done.
  all: try (split; [auto|]; congruence).
Qed.

(** X6. With the stages that run reporting status zero, a complete-mode call
    on an m x n input returns Q of shape (m, m) and R of shape (m, n)
    whatever the order of m and n, and an r-mode call returns R of shape
    (min(m,n), n). *)
Theorem complete_and_r_shapes st a mode m n res st' tr :
  shape a = [m; n] →
  supported (dtype a) →
  0 ≤ m → 0 ≤ n →
  Call zero lib a mode st = (res, st', tr) →
  Forall (λ v, v = 0) (readbacks tr) →
  (mode = QRMode.complete →
     ∃ Q R, res = Ok (Q, R) ∧ shape Q = [m; m] ∧ shape R = [m; n])
  ∧ (mode = QRMode.r →
     ∃ Q R, res = Ok (Q, R) ∧ shape R = [Z.min m n; n]).
Proof.
  intros Hs Hd Hm Hn. revert res st' tr.
  destruct a as [dt sh str off q]; cbn [shape dtype] in *; subst sh.
  destruct mode; qr_run.
  all: cbn [readbacks]; intros HF.
  all: repeat match goal with
       | H : Forall _ (_ :: _) |- _ => apply Forall_cons_1 in H; destruct H
       end; try done.
  all: split; intros; try discriminate.
  all: try (apply Z.ltb_lt in Hcase); try (apply Z.ltb_ge in Hcase).
  all: do 2 eexists; split; [reflexivity|]; cbn [shape reverse rev_append].
  all: rewrite ?slice_len_all, ?slice_len_prefix by lia.
  all: repeat split; first [reflexivity | f_equal; lia | do 2 f_equal; lia].
Qed.

(** X7. Every array a call on a two-dimensional single- or double-precision
    input returns, in any mode, has the element type of the input, starts at
    the beginning of its block and has the row-major strides of its shape. *)
Theorem returned_arrays_row_major st a mode m n res st' tr A B :
  shape a = [m; n] →
  supported (dtype a) →
  Call zero lib a mode st = (res, st', tr) →
  res = Ok (A, B) →
  (dtype A = dtype a ∧ offset A = 0 ∧ strides A = c_strides (shape A))
  ∧ (dtype B = dtype a ∧ offset B = 0 ∧ strides B = c_strides (shape B)).
Proof.
  intros Hs Hd. revert res st' tr.
  destruct a as [dt sh str off q]; cbn [shape dtype] in *; subst sh.
  destruct mode; qr_run.
  all: intros [= <- <-] || (intros; discriminate).
  all: repeat split; reflexivity.
Qed.

(** X8. On a two-dimensional single- or double-precision input held in an
    earlier block, in every mode, the call starts with the same eight device
    calls: the size query for reflector generation is made on the transposed
    copy with leading dimension n, a scratch block of exactly the size [S1]
    the query returned is allocated, and the primitive is run on the copy with
    leading dimension m, that scratch block and [lwork = S1]; the status it
    wrote is then read back.  The library receives every dimension converted
    to [int]. *)
Theorem reflector_generation_protocol st a mode m n res st' tr :
  shape a = [m; n] →
  supported (dtype a) →
  (data a < next st)%nat →
  Call zero lib a mode st = (res, st', tr) →
  let W := elements zero st (Transpose a) in
  let S1 := geqrf_bufferSize_for (dtype a) (to_int m) (to_int n) W (to_int n) in
  let p := next st in
  ∃ post,
    tr =
      [EvAllocate p (numel [0]);
       EvAllocate (1 + p)%nat (numel [n; m]);
       EvAllocate (2 + p)%nat (numel [Z.min m n]);
       EvCudaMalloc (3 + p)%nat;
       EvGeqrfBufferSize (to_int m) (to_int n) (1 + p)%nat (to_int n);
       EvAllocate (4 + p)%nat (numel [S1]);
       EvGeqrf (to_int m) (to_int n) (1 + p)%nat (to_int m)
         (2 + p)%nat (4 + p)%nat S1 (3 + p)%nat;
       EvMemcpyDtoH (3 + p)%nat
         (geqrf_run (geqrf_for (dtype a)) (to_int m) (to_int n) W (to_int m) S1).2]
      ++ post.
Proof.
  intros Hs Hd. revert res st' tr.
  destruct a as [dt sh str off q]; cbn [shape dtype data] in *; subst sh.
  intros res st' tr Hq. revert res st' tr.
  destruct mode; qr_run.
  all: cbv zeta; eexists; reflexivity.
Qed.

(** On and above the [k]-th diagonal a [Triu] result holds the entry of the
    matrix. *)
Lemma triu_in_above k blk (v : Array) dt p rows cols i j :
  shape v = [rows; cols] →
  0 ≤ i < rows → 0 ≤ j < cols → k ≤ j - i →
  get_in zero (triu_in zero k blk v)
    (mkArray dt [rows; cols] (c_strides [rows; cols]) 0 p) [i; j]
  = get_in zero blk v [i; j].
Proof.
  intros Hv Hi Hj Hk. unfold get_in at 1. unfold position, triu_in, numel. cbn.
  rewrite Hv, nth_lookup.
  replace (0 + (i * (cols * 1) + (j * 1 + 0))) with (i * cols + j) by lia.
  rewrite list_lookup_fmap, indices_matrix_lookup by done. cbn.
  destruct (Z.leb_spec k (j - i)); [done|lia].
Qed.

Ltac qr_run_mode md :=
  match goal with
  | |- context [Call _ _ ?a md] =>
      rewrite (Call_supported a md _ _ eq_refl ltac:(assumption))
  end;
  cbn [dtype];
  refine (runs_from_start _ _ (λ res st' tr, _) _); repeat step.

(** X9. Raw mode and r mode agree on the triangle: when, on the same input
    and device, a raw-mode call and an r-mode call both return, every entry
    (i, j) on or above the diagonal of the R that r mode returns is the entry
    (j, i) of the buffer raw mode returns first. *)
Theorem R_upper_part_is_raw_transposed st a m n :
  shape a = [m; n] →
  supported (dtype a) →
  0 ≤ m → 0 ≤ n →
  ∀ res_w st_w tr_w, Call zero lib a QRMode.raw st = (res_w, st_w, tr_w) →
  ∀ res st' tr, Call zero lib a QRMode.r st = (res, st', tr) →
  ∀ W tau Q R rows cols,
    res_w = Ok (W, tau) → res = Ok (Q, R) → shape R = [rows; cols] →
    ∀ i j, 0 ≤ i → i ≤ j → i < rows → j < cols →
      get zero st' R [i; j] = get zero st_w W [j; i].
Proof.
  intros Hs Hd Hm Hn.
  destruct a as [dt sh str off q]; cbn [shape dtype] in *; subst sh.
  qr_run_mode QRMode.raw; qr_run; try done.
  all: intros W tau Q R rows cols E1 E2; try discriminate.
  all: injection E1 as <- <-; injection E2 as <- <-.
  all: cbn [shape reverse rev_append]; intros [= <- <-] i j Hi Hij Hr Hc.
  all: rewrite ?slice_len_all, ?slice_len_prefix in Hr, Hc by lia.
  all: unfold get; norm_store.
  all: rewrite triu_in_above;
    [| cbn [shape reverse rev_append]; reflexivity
     | rewrite ?slice_len_all, ?slice_len_prefix by lia; lia ..].
  all: unfold get_in, position, clamp, numel; cbn; do 2 f_equal; lia.
Qed.

(** Row-major positions of an [n] x [m] matrix count up from zero. *)
Lemma positions_row_major n m :
  0 ≤ n → 0 ≤ m →
  (λ idx, Z.to_nat (dot idx [m; 1])) <$> indices [n; m] = seq 0 (Z.to_nat (n * m)).
Proof.
  intros Hn Hm. apply list_eq. intros t. rewrite list_lookup_fmap.
  destruct (decide (t < Z.to_nat (n * m))%nat) as [Ht|Ht].
  - assert (0 < m) by nia.
    pose proof (Z.div_mod (Z.of_nat t) m ltac:(lia)) as Hdm.
    pose proof (Z.mod_pos_bound (Z.of_nat t) m ltac:(lia)) as Hmod.
    assert (0 ≤ Z.of_nat t / m) by (apply Z.div_pos; lia).
    assert (Z.of_nat t / m < n) by (apply Z.div_lt_upper_bound; nia).
    replace t with (Z.to_nat (Z.of_nat t / m * m + Z.of_nat t `mod` m)) at 1 by lia.
    rewrite indices_matrix_lookup by lia. cbn.
    rewrite lookup_seq_lt by lia. f_equal. lia.
  - rewrite lookup_ge_None_2 by (rewrite length_indices_matrix; nia).
    rewrite lookup_ge_None_2 by (rewrite length_seq; lia). done.
Qed.

Lemma foldl_insert_seq (f : nat → Scalar) (dst : list Scalar) (N : nat) :
  (N ≤ length dst)%nat →
  foldl (λ blk k, <[k := f k]> blk) dst (seq 0 N) = (f <$> seq 0 N) ++ drop N dst.
Proof.
  induction N as [|N IH]; intros HN; [done|].
  rewrite seq_S, foldl_app, fmap_app, IH by lia. cbn.
  rewrite insert_app_r_alt by (rewrite length_fmap, length_seq; lia).
  rewrite length_fmap, length_seq, Nat.sub_diag.
  destruct (drop N dst) as [|x rest] eqn:E.
  - apply (f_equal length) in E. rewrite length_drop in E. cbn in E. lia.
  - cbn. rewrite <- (assoc_L (++)). cbn. do 2 f_equal.
    change rest with (drop 1 (x :: rest)). rewrite <- E, drop_drop. f_equal. lia.
Qed.

Lemma nth_seq_all (blk : list Scalar) :
  (λ k, nth k blk zero) <$> seq 0 (length blk) = blk.
Proof.
  apply list_eq. intros t. rewrite list_lookup_fmap.
  destruct (decide (t < length blk)%nat).
  - rewrite lookup_seq_lt by lia. cbn. rewrite nth_lookup.
    destruct (lookup_lt_is_Some_2 blk t ltac:(lia)) as [x ->]. done.
  - rewrite !lookup_ge_None_2; [done|lia|rewrite length_seq; lia].
Qed.

Lemma foldl_pointwise {A B} (g g' : A → B → A) (l : list B) (x : A) :
  (∀ acc y, g acc y = g' acc y) → foldl g x l = foldl g' x l.
Proof. intros H. revert x. induction l as [|y l IH]; intros x; cbn; [done|]. by rewrite H, IH. Qed.

(** [Q[0:n, :] = R]: the first [n] rows of the destination block become the
    source block. *)
Lemma copy_in_rows (src_blk dst_blk : list Scalar) dt dt' p p' n m rows :
  0 ≤ n → n ≤ rows → 0 ≤ m →
  length src_blk = Z.to_nat (n * m) →
  (Z.to_nat (n * m) ≤ length dst_blk)%nat →
  copy_in zero src_blk (mkArray dt [n; m] (c_strides [n; m]) 0 p) dst_blk
    (At (mkArray dt' [rows; m] (c_strides [rows; m]) 0 p')
        [Slice (Some 0) (Some n); Slice None None])
  = src_blk ++ drop (Z.to_nat (n * m)) dst_blk.
Proof.
  intros Hn Hr Hm Hsrc Hdst. unfold copy_in. cbn [shape At zip_with].
  rewrite slice_len_prefix, slice_len_all, Z.min_l by lia.
  rewrite (foldl_pointwise _
    (λ blk idx, (λ blk k, <[k := nth k src_blk zero]> blk) blk
                  (Z.to_nat (dot idx [m; 1])))).
  - rewrite <- (foldl_fmap (λ blk k, <[k := nth k src_blk zero]> blk)).
    rewrite positions_row_major, foldl_insert_seq by lia.
    rewrite <- Hsrc at 1. by rewrite nth_seq_all.
  - intros acc idx. unfold get_in, position, clamp, numel. cbn.
    rewrite (Z.min_l 0 rows), (Z.min_l 0 m) by lia.
    destruct idx as [|i [|j idx]]; cbn.
    all: match goal with
         | |- <[Z.to_nat ?x := nth (Z.to_nat ?y) _ _]> _ = <[Z.to_nat ?z := _]> _ =>
             replace x with z by lia; replace y with z by lia; reflexivity
         end.
Qed.

(** A [Copy] result holds, at each index, the entry of the view. *)
Lemma elements_in_entry blk (v : Array) dt p rows cols i j :
  shape v = [rows; cols] →
  0 ≤ i < rows → 0 ≤ j < cols →
  get_in zero (elements_in zero blk v)
    (mkArray dt [rows; cols] (c_strides [rows; cols]) 0 p) [i; j]
  = get_in zero blk v [i; j].
Proof.
  intros Hv Hi Hj. unfold get_in at 1. unfold position, elements_in, numel. cbn.
  rewrite Hv, nth_lookup.
  replace (0 + (i * (cols * 1) + (j * 1 + 0))) with (i * cols + j) by lia.
  rewrite list_lookup_fmap, indices_matrix_lookup by done. done.
Qed.

(** X10. In a reduced- or complete-mode call whose reflector generation
    reports status zero and leaves n*m entries in the working buffer, the
    accumulation primitive is run, with dimensions converted to [int], on
    that output (followed, when Q has more than n rows, by unwritten storage)
    and on the tau that reflector generation wrote, while the scratch pointer
    it is handed names no live block.  The second status read back, and the
    Q that is returned when it is zero, are what this run leaves after its
    scratch writes: Q has shape (m, mc) and its entry (i, j) is entry
    j*m + i of the accumulated buffer as those writes left it. *)
Theorem accumulation_data_flow st a mode m n res st' tr :
  shape a = [m; n] →
  supported (dtype a) →
  0 ≤ m → 0 ≤ n →
  (data a < next st)%nat →
  mode = QRMode.reduced ∨ mode = QRMode.complete →
  let dt := dtype a in
  let p := next st in
  let W := elements zero st (Transpose a) in
  let F := geqrf_run (geqrf_for dt) (to_int m) (to_int n) W (to_int m)
             (geqrf_bufferSize_for dt (to_int m) (to_int n) W (to_int n)) in
  let full := bool_decide (mode = QRMode.complete) && (n <? m) in
  let mc := if full then m else Z.min m n in
  let rows := if full then m else n in
  let Qin := F.1.1 ++ drop (Z.to_nat (n * m))
                        (uninit lib (5 + p)%nat
                           <$> seq 0 (Z.to_nat (numel [rows; m]))) in
  let S2 := orgqr_bufferSize_for dt (to_int m) (to_int mc) (to_int (Z.min m n))
              Qin (to_int m) F.1.2 in
  let G := orgqr_run (orgqr_for dt) (to_int m) (to_int mc) (to_int (Z.min m n))
             Qin (to_int m) F.1.2 S2 in
  let ev := EvOrgqr (to_int m) (to_int mc) (to_int (Z.min m n))
              (5 + p)%nat (to_int m) (2 + p)%nat (4 + p)%nat S2 (3 + p)%nat in
  let s := orgqr_scratch (orgqr_for dt) in
  length F.1.1 = Z.to_nat (n * m) →
  F.2 = 0 →
  Call zero lib a mode st = (res, st', tr) →
  ∃ before,
    blocks before !! (5 + p)%nat = Some Qin
    ∧ blocks before !! (2 + p)%nat = Some F.1.2
    ∧ blocks before !! (4 + p)%nat = None
    ∧ In ev tr
    ∧ readbacks tr = [0; scribble_cell s before ev (3 + p)%nat G.2]
    ∧ (scribble_cell s before ev (3 + p)%nat G.2 = 0 →
       ∃ Q R, res = Ok (Q, R) ∧ shape Q = [m; mc]
         ∧ ∀ i j, 0 ≤ i < m → 0 ≤ j < mc →
             get zero st' Q [i; j]
             = nth (Z.to_nat (j * m + i)) (scribble s before ev (5 + p)%nat G.1) zero).
Proof.
  intros Hs Hd Hm Hn. revert res st' tr.
  destruct a as [dt sh str off q]; cbn [shape dtype data] in *; subst sh.
  intros res st' tr Hq Hmode. cbv zeta. intros Hlen HF. revert res st' tr.
  destruct Hmode as [-> | ->]; qr_run.
  all: try (exfalso; apply Hinfo; exact HF).
  all: try (apply Z.ltb_lt in Hcase); try (apply Z.ltb_ge in Hcase).
  all: repeat match goal with x := _ |- _ => subst x end.
  all: match goal with |- context [scribble_cell (orgqr_scratch _) ?B _] => exists B end.
  all: unfold elements, block in *; cbn [data Transpose] in *.
  all: rewrite copy_in_rows in *
         by (rewrite ?length_fmap, ?length_seq; unfold numel; cbn [foldr]; (lia || nia || done)).
  all: split; [norm_store; reflexivity|].
  all: split; [norm_store; reflexivity|].
  all: split; [norm_store; reflexivity|].
  all: split; [cbn [In]; tauto|].
  all: cbn [readbacks]; split; [rewrite HF; reflexivity|intros HG].
  all: try (exfalso; apply Hinfo0; exact HG).
  all: do 2 eexists; split; [reflexivity|]; cbn [shape reverse rev_append].
  all: rewrite ?slice_len_all, ?slice_len_prefix by lia.
  all: split; [first [reflexivity | do 2 f_equal; lia]|]; intros i j Hi Hj.
  all: unfold get; norm_store.
  all: rewrite elements_in_entry;
    [| cbn [shape Transpose At zip_with reverse rev_append];
       rewrite ?slice_len_all, ?slice_len_prefix by lia; reflexivity
     | lia ..].
  all: unfold get_in, position, clamp, numel; cbn; do 2 f_equal; lia.
Qed.

(** X11. Unless the input has more rows than columns, a complete-mode call
    is the reduced-mode call: on the same input and device both end the same
    way, with the same device calls and the same final device. *)
Theorem complete_is_reduced_unless_tall st a m n :
  shape a = [m; n] →
  supported (dtype a) →
  m ≤ n →
  Call zero lib a QRMode.complete st = Call zero lib a QRMode.reduced st.
Proof.
  intros Hs Hd Hmn.
  enough (H : ∀ r1 s1 t1, Call zero lib a QRMode.complete st = (r1, s1, t1) →
              ∀ r2 s2 t2, Call zero lib a QRMode.reduced st = (r2, s2, t2) →
              (r1, s1, t1) = (r2, s2, t2)).
  { destruct (Call zero lib a QRMode.complete st) as [[r1 s1] t1].
    destruct (Call zero lib a QRMode.reduced st) as [[r2 s2] t2].
    exact (H _ _ _ eq_refl _ _ _ eq_refl). }
  destruct a as [dt sh str off q]; cbn [shape dtype] in *; subst sh.
  qr_run_mode QRMode.complete; try (apply Z.ltb_lt in Hcase; lia).
  all: qr_run_mode QRMode.reduced; try done.
Qed.

Lemma to_int_wrap (x k : Z) :
  -2147483648 ≤ x - k * 4294967296 < 2147483648 → to_int x = x - k * 4294967296.
Proof.
  intros H. unfold to_int.
  replace (x + 2147483648) with (x - k * 4294967296 + 2147483648 + k * 4294967296) by lia.
  rewrite Z_mod_plus_full, Z.mod_small by lia. lia.
Qed.

(** X12. The dimensions reach the library narrowed to 32 bits: on a
    two-dimensional single- or double-precision input, reflector generation
    is run exactly once, on m and n reduced modulo 2^32 into the range of
    [int] and with the reduced m as leading dimension.  Dimensions within
    that range arrive as they are (k = l = 0); a row count of 2^32 + 3
    arrives as 3. *)
Theorem dimensions_reach_library_narrowed st a mode m n res st' tr :
  shape a = [m; n] →
  supported (dtype a) →
  Call zero lib a mode st = (res, st', tr) →
  ∀ k l,
    -2147483648 ≤ m - k * 4294967296 < 2147483648 →
    -2147483648 ≤ n - l * 4294967296 < 2147483648 →
    geqrf_dims tr = [(m - k * 4294967296, n - l * 4294967296, m - k * 4294967296)].
Proof.
  intros Hs Hd HC k l Hk Hl.
  rewrite <- (to_int_wrap m k Hk), <- (to_int_wrap n l Hl).
  clear k l Hk Hl. revert res st' tr HC.
  destruct a as [dt sh str off q]; cbn [shape dtype] in *; subst sh.
  destruct mode; qr_run.
  all: cbn [geqrf_dims]; reflexivity.
Qed.

End Properties.

(** * The sample call *)

Lemma non_2d_rejected_without_allocation_witness :
  Call 0 (sample_lib 0 0) sample_vector QRMode.reduced sample_dev
    = (Throw (DimensionError not_2d), sample_dev, [])
  ∧ raises_before_allocating (DimensionError not_2d)
      (Call 0 (sample_lib 0 0) sample_vector QRMode.reduced sample_dev).
Proof.
  apply (non_2d_rejected_without_allocation 0 (sample_lib 0 0) sample_dev
           sample_vector QRMode.reduced).
  vm_compute. lia.
Defined.

(** C2 as stated fails: on the half-precision 3x2 sample the unsupported-type
    error is raised after three device allocations. *)
Lemma half_precision_allocates_first :
  (sample_call (sample_lib 0 0) kFloat16 QRMode.reduced).1.1 = Throw (DtypeError no_half)
  ∧ allocations (sample_call (sample_lib 0 0) kFloat16 QRMode.reduced).2 = 3%nat
  ∧ ¬ raises_before_allocating (DtypeError no_half)
        (sample_call (sample_lib 0 0) kFloat16 QRMode.reduced).
Proof.
  split; [vm_compute; reflexivity|]. split; [vm_compute; reflexivity|].
  intros [_ H]. vm_compute in H. discriminate H.
Qed.

Lemma half_precision_rejected_before_status_cell_witness :
  ∃ st',
    sample_call (sample_lib 0 0) kFloat16 QRMode.reduced =
      (Throw (DtypeError no_half), st',
       [EvAllocate 1 0; EvAllocate 2 6; EvAllocate 3 2;
        EvRelease 3; EvRelease 2; EvRelease 1])
    ∧ cells st' = ∅
    ∧ blocks st' !! 1%nat = None
    ∧ blocks st' !! 2%nat = None
    ∧ blocks st' !! 3%nat = None.
Proof.
  exact (half_precision_rejected_before_status_cell 0 (sample_lib 0 0) sample_dev
           (sample_a kFloat16) QRMode.reduced 3 2 eq_refl eq_refl).
Defined.

Lemma status_cell_left_allocated_witness :
  In (EvCudaMalloc 4) (sample_call (sample_lib 0 0) kFloat32 QRMode.reduced).2
  ∧ cuda_frees (sample_call (sample_lib 0 0) kFloat32 QRMode.reduced).2 = []
  ∧ is_Some (cells (sample_call (sample_lib 0 0) kFloat32 QRMode.reduced).1.2 !! 4%nat).
Proof.
  apply (status_cell_left_allocated 0 (sample_lib 0 0) sample_dev
           (sample_a kFloat32) QRMode.reduced 3 2
           (sample_call (sample_lib 0 0) kFloat32 QRMode.reduced).1.1).
  - reflexivity.
  - left. reflexivity.
  - vm_compute. reflexivity.
Defined.

Lemma accumulation_given_released_scratch_witness :
  scratch_uses (sample_call (sample_lib 0 0) kFloat32 QRMode.reduced).2 = [5%nat; 5%nat]
  ∧ ∃ S1 S2 post,
    (sample_call (sample_lib 0 0) kFloat32 QRMode.reduced).2 =
      [EvAllocate 1 0; EvAllocate 2 6; EvAllocate 3 2; EvCudaMalloc 4;
       EvGeqrfBufferSize 3 2 2 2; EvAllocate 5 (numel [S1]);
       EvGeqrf 3 2 2 3 3 5 S1 4; EvMemcpyDtoH 4 0;
       EvAllocate 6 6; EvRelease 1; EvOrgqrBufferSize 3 2 2 6 3 3;
       EvAllocate 7 (numel [S2]); EvRelease 5; EvOrgqr 3 2 2 6 3 3 5 S2 4] ++ post.
Proof.
  apply (accumulation_given_released_scratch 0 (sample_lib 0 0) sample_dev
           (sample_a kFloat32) QRMode.reduced 3 2
           (sample_call (sample_lib 0 0) kFloat32 QRMode.reduced).1.1
           (sample_call (sample_lib 0 0) kFloat32 QRMode.reduced).1.2
           (sample_call (sample_lib 0 0) kFloat32 QRMode.reduced).2).
  - reflexivity.
  - left. reflexivity.
  - left. reflexivity.
  - vm_compute. reflexivity.
  - vm_compute. reflexivity.
Defined.

(** The sample with a reflector-generation stage that reports status 7. *)
Lemma status_checked_after_each_stage_witness :
  (sample_call (sample_lib 7 0) kFloat32 QRMode.reduced).1.1
    = Throw (ChainerxError geqrf_failed 7)
  ∧ orgqr_dims (sample_call (sample_lib 7 0) kFloat32 QRMode.reduced).2 = []
  ∧ (sample_call (sample_lib 0 7) kFloat32 QRMode.reduced).1.1
    = Throw (ChainerxError orgqr_failed 7).
Proof.
  split; [|split].
  - apply (status_checked_after_each_stage 0 (sample_lib 7 0) sample_dev
             (sample_a kFloat32) QRMode.reduced 3 2 _
             (sample_call (sample_lib 7 0) kFloat32 QRMode.reduced).1.2
             (sample_call (sample_lib 7 0) kFloat32 QRMode.reduced).2
             eq_refl (or_introl eq_refl)) with (v := 7) (rest := []).
    + vm_compute. reflexivity.
    + vm_compute. reflexivity.
    + lia.
  - apply (status_checked_after_each_stage 0 (sample_lib 7 0) sample_dev
             (sample_a kFloat32) QRMode.reduced 3 2
             (sample_call (sample_lib 7 0) kFloat32 QRMode.reduced).1.1
             (sample_call (sample_lib 7 0) kFloat32 QRMode.reduced).1.2 _
             eq_refl (or_introl eq_refl)) with (v := 7) (rest := []).
    + vm_compute. reflexivity.
    + vm_compute. reflexivity.
    + lia.
  - apply (status_checked_after_each_stage 0 (sample_lib 0 7) sample_dev
             (sample_a kFloat32) QRMode.reduced 3 2 _
             (sample_call (sample_lib 0 7) kFloat32 QRMode.reduced).1.2
             (sample_call (sample_lib 0 7) kFloat32 QRMode.reduced).2
             eq_refl (or_introl eq_refl)) with (v := 7) (rest := []).
    + vm_compute. reflexivity.
    + vm_compute. reflexivity.
    + lia.
Defined.

Lemma factor_shapes_witness :
  (∃ Q R, (sample_call (sample_lib 0 0) kFloat32 QRMode.reduced).1.1 = Ok (Q, R)
     ∧ shape Q = [3; 2] ∧ shape R = [2; 2])
  ∧ (∃ Q R, (sample_call (sample_lib 0 0) kFloat32 QRMode.complete).1.1 = Ok (Q, R)
     ∧ shape Q = [3; 3] ∧ orgqr_dims (sample_call (sample_lib 0 0) kFloat32 QRMode.complete).2 = [(3, 3, 2)]).
Proof.
  split.
  - apply (factor_shapes 0 (sample_lib 0 0) sample_dev (sample_a kFloat32)
             QRMode.reduced 3 2 _
             (sample_call (sample_lib 0 0) kFloat32 QRMode.reduced).1.2
             (sample_call (sample_lib 0 0) kFloat32 QRMode.reduced).2
             eq_refl (or_introl eq_refl)).
    + lia.
    + lia.
    + vm_compute. reflexivity.
    + vm_compute. repeat constructor.
    + reflexivity.
  - apply (factor_shapes 0 (sample_lib 0 0) sample_dev (sample_a kFloat32)
             QRMode.complete 3 2 _
             (sample_call (sample_lib 0 0) kFloat32 QRMode.complete).1.2
             (sample_call (sample_lib 0 0) kFloat32 QRMode.complete).2
             eq_refl (or_introl eq_refl)).
    + lia.
    + lia.
    + vm_compute. reflexivity.
    + vm_compute. repeat constructor.
    + reflexivity.
    + lia.
Defined.

Lemma returned_R_upper_triangular_witness :
  ∃ Q R rows cols blk,
    (sample_call (sample_lib 0 0) kFloat32 QRMode.reduced).1.1 = Ok (Q, R)
    ∧ shape R = [rows; cols]
    ∧ blocks (sample_call (sample_lib 0 0) kFloat32 QRMode.reduced).1.2 !! data R = Some blk
    ∧ length blk = (Z.to_nat rows * Z.to_nat cols)%nat
    ∧ ∀ i j, 0 ≤ j → j < i → i < rows → j < cols →
        get 0 (sample_call (sample_lib 0 0) kFloat32 QRMode.reduced).1.2 R [i; j] = 0
        ∧ blk !! Z.to_nat (position R [i; j]) = Some 0.
Proof.
  apply (returned_R_upper_triangular 0 (sample_lib 0 0) sample_dev (sample_a kFloat32)
           QRMode.reduced 3 2 _ _
           (sample_call (sample_lib 0 0) kFloat32 QRMode.reduced).2
           eq_refl (or_introl eq_refl)).
  - discriminate.
  - vm_compute. reflexivity.
  - vm_compute. repeat constructor.
Defined.


Lemma raw_mode_returns_packed_buffers_witness :
  (sample_call (sample_lib 0 0) kFloat32 QRMode.raw).1.1
    = Ok (mkArray kFloat32 [2; 3] [3; 1] 0 2, mkArray kFloat32 [2] [1] 0 3)
  ∧ blocks (sample_call (sample_lib 0 0) kFloat32 QRMode.raw).1.2 !! 2%nat
    = Some [2; 4; 6; 3; 5; 7]
  ∧ blocks (sample_call (sample_lib 0 0) kFloat32 QRMode.raw).1.2 !! 3%nat
    = Some [7; 7].
Proof.
  destruct (raw_mode_returns_packed_buffers 0 (sample_lib 0 0) sample_dev
              (sample_a kFloat32) 3 2 eq_refl (or_introl eq_refl)) as [H _].
  - vm_compute. lia.
  - destruct (H (sample_call (sample_lib 0 0) kFloat32 QRMode.raw).1.1
                (sample_call (sample_lib 0 0) kFloat32 QRMode.raw).1.2
                (sample_call (sample_lib 0 0) kFloat32 QRMode.raw).2)
      as (E & _ & _ & HW & Htau).
    + vm_compute. reflexivity.
    + vm_compute. repeat constructor.
    + split; [exact E|]. split; [exact HW|exact Htau].
Defined.

(** * The further properties on the sample call *)

Lemma earlier_storage_untouched_witness :
  blocks (sample_call (sample_lib 0 0) kFloat32 QRMode.raw).1.2 !! 0%nat
    = blocks sample_dev !! 0%nat
  ∧ cells (sample_call (sample_lib 0 0) kFloat32 QRMode.raw).1.2 !! 0%nat
    = cells sample_dev !! 0%nat.
Proof.
  apply (earlier_storage_untouched 0 (sample_lib 0 0) sample_dev
           (sample_a kFloat32) QRMode.raw
           (sample_call (sample_lib 0 0) kFloat32 QRMode.raw).1.1
           (sample_call (sample_lib 0 0) kFloat32 QRMode.raw).1.2
           (sample_call (sample_lib 0 0) kFloat32 QRMode.raw).2).
  - vm_compute. reflexivity.
  - vm_compute. reflexivity.
  - vm_compute. lia.
Defined.

Lemma array_storage_balanced_witness :
  live_blocks (sample_call (sample_lib 0 7) kFloat32 QRMode.complete).2
    = returned_blocks (sample_call (sample_lib 0 7) kFloat32 QRMode.complete).1.1
  ∧ live_blocks (sample_call (sample_lib 0 0) kFloat32 QRMode.r).2
    = returned_blocks (sample_call (sample_lib 0 0) kFloat32 QRMode.r).1.1.
Proof.
  split.
  - apply (array_storage_balanced 0 (sample_lib 0 7) sample_dev
             (sample_a kFloat32) QRMode.complete 3 2 _
             (sample_call (sample_lib 0 7) kFloat32 QRMode.complete).1.2).
    + reflexivity.
    + right. left. reflexivity.
    + vm_compute. reflexivity.
  - apply (array_storage_balanced 0 (sample_lib 0 0) sample_dev
             (sample_a kFloat32) QRMode.r 3 2 _
             (sample_call (sample_lib 0 0) kFloat32 QRMode.r).1.2).
    + reflexivity.
    + right. left. reflexivity.
    + vm_compute. reflexivity.
Defined.

Lemma other_types_hit_never_reach_witness :
  ∃ st',
    sample_call (sample_lib 0 0) kInt32 QRMode.reduced =
      (Throw NeverReach, st', [EvAllocate 1 0; EvAllocate 2 6; EvAllocate 3 2])
    ∧ cells st' = ∅.
Proof.
  apply (other_types_hit_never_reach 0 (sample_lib 0 0) sample_dev
           (sample_a kInt32) QRMode.reduced 3 2).
  - reflexivity.
  - vm_compute. discriminate.
  - vm_compute. discriminate.
  - vm_compute. discriminate.
Defined.

Lemma accumulation_runs_when_witness :
  length (scratch_uses (sample_call (sample_lib 0 0) kFloat32 QRMode.raw).2) = 1%nat
  ∧ orgqr_dims (sample_call (sample_lib 0 0) kFloat32 QRMode.complete).2 ≠ [].
Proof.
  split.
  - destruct (accumulation_runs_when 0 (sample_lib 0 0) sample_dev
                (sample_a kFloat32) QRMode.raw 3 2
                (sample_call (sample_lib 0 0) kFloat32 QRMode.raw).1.1
                (sample_call (sample_lib 0 0) kFloat32 QRMode.raw).1.2
                (sample_call (sample_lib 0 0) kFloat32 QRMode.raw).2) as (H & _ & _).
    + reflexivity.
    + left. reflexivity.
    + vm_compute. reflexivity.
    + exact H.
  - apply (accumulation_runs_when 0 (sample_lib 0 0) sample_dev
             (sample_a kFloat32) QRMode.complete 3 2
             (sample_call (sample_lib 0 0) kFloat32 QRMode.complete).1.1
             (sample_call (sample_lib 0 0) kFloat32 QRMode.complete).1.2
             (sample_call (sample_lib 0 0) kFloat32 QRMode.complete).2).
    + reflexivity.
    + left. reflexivity.
    + vm_compute. reflexivity.
    + split; [right; reflexivity | vm_compute; reflexivity].
Defined.

Lemma complete_and_r_shapes_witness :
  ∃ Q R, (Call 0 (sample_lib 0 0) sample_wide QRMode.complete sample_dev).1.1 = Ok (Q, R)
    ∧ shape Q = [2; 2] ∧ shape R = [2; 3].
Proof.
  apply (complete_and_r_shapes 0 (sample_lib 0 0) sample_dev sample_wide
           QRMode.complete 2 3 _
           (Call 0 (sample_lib 0 0) sample_wide QRMode.complete sample_dev).1.2
           (Call 0 (sample_lib 0 0) sample_wide QRMode.complete sample_dev).2).
  - reflexivity.
  - right. reflexivity.
  - lia.
  - lia.
  - vm_compute. reflexivity.
  - vm_compute. repeat constructor.
  - reflexivity.
Defined.

Lemma returned_arrays_row_major_witness :
  ∃ A B, (sample_call (sample_lib 0 0) kFloat32 QRMode.reduced).1.1 = Ok (A, B)
    ∧ (dtype A = kFloat32 ∧ offset A = 0 ∧ strides A = [2; 1])
    ∧ (dtype B = kFloat32 ∧ offset B = 0 ∧ strides B = [2; 1]).
Proof.
  exists (mkArray kFloat32 [3; 2] [2; 1] 0 8), (mkArray kFloat32 [2; 2] [2; 1] 0 9).
  split; [vm_compute; reflexivity|].
  apply (returned_arrays_row_major 0 (sample_lib 0 0) sample_dev (sample_a kFloat32)
           QRMode.reduced 3 2
           (sample_call (sample_lib 0 0) kFloat32 QRMode.reduced).1.1
           (sample_call (sample_lib 0 0) kFloat32 QRMode.reduced).1.2
           (sample_call (sample_lib 0 0) kFloat32 QRMode.reduced).2).
  - reflexivity.
  - left. reflexivity.
  - vm_compute. reflexivity.
  - vm_compute. reflexivity.
Defined.

Lemma reflector_generation_protocol_witness :
  ∃ post,
    (sample_call (sample_lib 0 0) kFloat32 QRMode.r).2 =
      [EvAllocate 1 0; EvAllocate 2 6; EvAllocate 3 2; EvCudaMalloc 4;
       EvGeqrfBufferSize 3 2 2 2; EvAllocate 5 5;
       EvGeqrf 3 2 2 3 3 5 5 4; EvMemcpyDtoH 4 0] ++ post.
Proof.
  apply (reflector_generation_protocol 0 (sample_lib 0 0) sample_dev
           (sample_a kFloat32) QRMode.r 3 2
           (sample_call (sample_lib 0 0) kFloat32 QRMode.r).1.1
           (sample_call (sample_lib 0 0) kFloat32 QRMode.r).1.2).
  - reflexivity.
  - left. reflexivity.
  - vm_compute. lia.
  - vm_compute. reflexivity.
Defined.

Lemma R_upper_part_is_raw_transposed_witness :
  get 0 (sample_call (sample_lib 0 0) kFloat32 QRMode.r).1.2
    (mkArray kFloat32 [2; 2] [2; 1] 0 6) [0; 1]
  = get 0 (sample_call (sample_lib 0 0) kFloat32 QRMode.raw).1.2
      (mkArray kFloat32 [2; 3] [3; 1] 0 2) [1; 0].
Proof.
  refine (R_upper_part_is_raw_transposed 0 (sample_lib 0 0) sample_dev
            (sample_a kFloat32) 3 2 eq_refl (or_introl eq_refl) _ _
            (sample_call (sample_lib 0 0) kFloat32 QRMode.raw).1.1
            (sample_call (sample_lib 0 0) kFloat32 QRMode.raw).1.2
            (sample_call (sample_lib 0 0) kFloat32 QRMode.raw).2 _
            (sample_call (sample_lib 0 0) kFloat32 QRMode.r).1.1
            (sample_call (sample_lib 0 0) kFloat32 QRMode.r).1.2
            (sample_call (sample_lib 0 0) kFloat32 QRMode.r).2 _
            (mkArray kFloat32 [2; 3] [3; 1] 0 2) (mkArray kFloat32 [2] [1] 0 3)
            (mkArray kFloat32 [0] [1] 0 1) (mkArray kFloat32 [2; 2] [2; 1] 0 6)
            2 2 _ _ eq_refl 0 1 _ _ _ _).
  - lia.
  - lia.
  - vm_compute. reflexivity.
  - vm_compute. reflexivity.
  - vm_compute. reflexivity.
  - vm_compute. reflexivity.
  - lia.
  - lia.
  - lia.
  - lia.
Defined.

Lemma accumulation_data_flow_witness :
  ∃ before,
    blocks before !! 6%nat = Some [2; 4; 6; 3; 5; 7]
    ∧ blocks before !! 3%nat = Some [7; 7]
    ∧ blocks before !! 5%nat = None
    ∧ In (EvOrgqr 3 2 2 6 3 3 5 9 4) (sample_call (sample_lib 0 0) kFloat32 QRMode.reduced).2
    ∧ readbacks (sample_call (sample_lib 0 0) kFloat32 QRMode.reduced).2 = [0; 0]
    ∧ ∃ Q R, (sample_call (sample_lib 0 0) kFloat32 QRMode.reduced).1.1 = Ok (Q, R)
        ∧ shape Q = [3; 2]
        ∧ ∀ i j, 0 ≤ i < 3 → 0 ≤ j < 2 →
            get 0 (sample_call (sample_lib 0 0) kFloat32 QRMode.reduced).1.2 Q [i; j]
            = nth (Z.to_nat (j * 3 + i)) [1; 3; 5; 2; 4; 6] 0.
Proof.
  destruct (accumulation_data_flow 0 (sample_lib 0 0) sample_dev
              (sample_a kFloat32) QRMode.reduced 3 2
              (sample_call (sample_lib 0 0) kFloat32 QRMode.reduced).1.1
              (sample_call (sample_lib 0 0) kFloat32 QRMode.reduced).1.2
              (sample_call (sample_lib 0 0) kFloat32 QRMode.reduced).2)
    as (before & H1 & H2 & H3 & H4 & H5 & H6).
  - reflexivity.
  - left. reflexivity.
  - lia.
  - lia.
  - vm_compute. lia.
  - left. reflexivity.
  - vm_compute. reflexivity.
  - vm_compute. reflexivity.
  - vm_compute. reflexivity.
  - exists before. split; [exact H1|]. split; [exact H2|]. split; [exact H3|].
    split; [exact H4|]. split; [exact H5|]. apply H6. vm_compute. reflexivity.
Defined.

(** A matrix of 2^32 + 3 rows reaches reflector generation with 3 rows. *)
Lemma dimensions_reach_library_narrowed_witness :
  geqrf_dims (Call 0 (sample_lib 0 0) sample_huge QRMode.raw sample_dev).2 = [(3, 0, 3)].
Proof.
  apply (dimensions_reach_library_narrowed 0 (sample_lib 0 0) sample_dev sample_huge
           QRMode.raw 4294967299 0
           (Call 0 (sample_lib 0 0) sample_huge QRMode.raw sample_dev).1.1
           (Call 0 (sample_lib 0 0) sample_huge QRMode.raw sample_dev).1.2
           (Call 0 (sample_lib 0 0) sample_huge QRMode.raw sample_dev).2
           eq_refl (or_introl eq_refl)) with (k := 1) (l := 0).
  - vm_compute. reflexivity.
  - lia.
  - lia.
Defined.

Lemma complete_is_reduced_unless_tall_witness :
  Call 0 (sample_lib 0 0) sample_wide QRMode.complete sample_dev
  = Call 0 (sample_lib 0 0) sample_wide QRMode.reduced sample_dev.
Proof.
  apply (complete_is_reduced_unless_tall 0 (sample_lib 0 0) sample_dev sample_wide 2 3).
  - reflexivity.
  - right. reflexivity.
  - lia.
Defined.
